(** * GCSecretManager: configuration resolution and request construction

    A shallow embedding of [src/GCSecretManager.js].  JavaScript values are
    an inductive type, the objects the library shares and mutates (the
    configuration objects and the handles) live in a store indexed by
    references, and every method is a function in a small monad that threads
    the store and the log of [UrlFetchApp.fetch] calls and propagates
    thrown exceptions.

    The file has the model first (values, store, platform, monad, the
    library, a concrete platform after the mocks of the test suite), then
    the vocabulary of the properties and the scenes of the examples, then
    the properties: those of the specification first, further properties of
    the code after them. *)

From Stdlib Require Import Ascii String.
From stdpp Require Import base gmap strings list fin_maps pretty.

Open Scope Z_scope.
Open Scope string_scope.

(** ** JavaScript values *)

Definition loc := positive.

(** [VRef] names an object of the store: an object with identity, which can
    be aliased and mutated.  [VObj] and [VArr] are object and array values
    without identity: literals that are built, handed over and never written
    again (the options of [fetch], JSON payloads, parsed JSON).  [VNum] holds
    the integer-valued numbers that print in plain decimal (status codes,
    secret versions); fractions, [NaN] and exponents are not modelled. *)
#[warnings="-register-all"]
Inductive JsValue : Type :=
  | VUndefined
  | VNull
  | VBool (b : bool)
  | VNum (n : Z)
  | VStr (s : string)
  | VArr (items : list JsValue)
  | VObj (fields : list (string * JsValue))
  | VRef (l : loc).

(** Exceptions: [throw new Error(msg)] and [throw Error(msg)] of the source,
    and the two built-in exceptions its expressions can raise. *)
Inductive JsExn : Type :=
  | JsError (message : string)
  | JsTypeError
  | JsSyntaxError.

Inductive Result (A : Type) : Type :=
  | Return (a : A)
  | Throw (e : JsExn).
Arguments Return {A} a.
Arguments Throw {A} e.

(** [!x] is true on the falsy values. *)
Definition toBoolean (v : JsValue) : bool :=
  match v with
  | VUndefined | VNull => false
  | VBool b => b
  | VNum n => negb (Z.eqb n 0)
  | VStr s => negb (String.eqb s "")
  | VArr _ | VObj _ | VRef _ => true
  end.

(** String conversion, as a template literal [`${v}`] performs it. *)
Fixpoint join (sep : string) (l : list string) : string :=
  match l with
  | [] => ""
  | [s] => s
  | s :: rest => s +:+ sep +:+ join sep rest
  end.

Fixpoint toString (v : JsValue) : string :=
  match v with
  | VUndefined => "undefined"
  | VNull => "null"
  | VBool true => "true"
  | VBool false => "false"
  | VNum n => pretty n
  | VStr s => s
  | VArr items =>
      join "," (List.map (fun x => match x with
                                   | VUndefined | VNull => ""
                                   | _ => toString x
                                   end) items)
  | VObj _ | VRef _ => "[object Object]"
  end.

(** ** Objects and the store *)

(** The own properties of an object, by name. *)
Abbreviation Props := (gmap string JsValue).

Fixpoint chars_from (i : nat) (s : string) : list (string * JsValue) :=
  match s with
  | EmptyString => []
  | String c rest => (pretty i, VStr (String c EmptyString)) :: chars_from (S i) rest
  end.

Fixpoint items_from (i : nat) (l : list JsValue) : list (string * JsValue) :=
  match l with
  | [] => []
  | x :: rest => (pretty i, x) :: items_from (S i) rest
  end.

(** [assign l m] adds the pairs of [l] to [m] from left to right, a later
    pair replacing an earlier one of the same name. *)
Definition assign (l : list (string * JsValue)) (m : Props) : Props :=
  fold_left (fun acc kv => <[kv.1 := kv.2]> acc) l m.

(** The own enumerable properties that a spread [...v] copies: none for
    [undefined], [null], booleans and numbers, the indexed characters of a
    string, the indexed items of an array, the fields of an object. *)
Definition ownProps (heap : gmap loc Props) (v : JsValue) : Props :=
  match v with
  | VUndefined | VNull | VBool _ | VNum _ => ∅
  | VStr s => assign (chars_from 0 s) ∅
  | VArr items => assign (items_from 0 items) ∅
  | VObj fields => assign fields ∅
  | VRef l => default ∅ (heap !! l)
  end.

(** [{ ...a, ...b }] on property maps: a name present in [b] takes [b]'s
    value, whatever that value is. *)
Definition spread (a b : Props) : Props := b ∪ a.

(** Reading a property of an object literal held in a local: an absent
    name reads as [undefined]. *)
Definition field (m : Props) (k : string) : JsValue := default VUndefined (m !! k).

(** ** Requests, responses and the world *)

(** One call [UrlFetchApp.fetch(url, params)]. *)
Record Request : Type := mkRequest { url : string; params : JsValue }.

(** An [HTTPResponse]: what [getResponseCode()] and [getContentText()]
    return. *)
Record Response : Type := mkResponse { getResponseCode : Z; getContentText : string }.

Record World : Type := mkWorld {
  heap : gmap loc Props;
  fetched : list Request
}.

Definition log_fetch (r : Request) (w : World) : World :=
  mkWorld (heap w) (fetched w ++ [r]).

Definition set_heap (h : gmap loc Props) (w : World) : World :=
  mkWorld h (fetched w).

(** ** The platform

    What the library calls and does not define: the Apps Script services
    [UrlFetchApp], [ScriptApp] and [Utilities], and the built-in [JSON].
    [UrlFetchApp_fetch log r] is the response to the request [r] when the
    requests of [log] were made before it; the library always sets
    [muteHttpExceptions], so every status code comes back as a response.
    [Blob_getDataAsString d] stands for
    [Utilities.newBlob(d).getDataAsString()]; the codecs of [Utilities] are
    total functions.  [JSON_parse] is [None] where [JSON.parse] throws a
    [SyntaxError]. *)
Class Platform : Type := {
  UrlFetchApp_fetch : list Request -> Request -> Response;
  ScriptApp_getOAuthToken : list Request -> string;
  Utilities_base64Encode : JsValue -> JsValue;
  Utilities_base64Decode : JsValue -> JsValue;
  Blob_getDataAsString : JsValue -> JsValue;
  JSON_parse : string -> option JsValue;
  JSON_stringify : JsValue -> JsValue
}.

(** ** The monad of library code: a world in, a result or an exception and a
    world out.  A thrown exception keeps the world it was thrown in. *)
Definition M (A : Type) : Type := World -> Result A * World.

#[global] Instance M_ret : MRet M := fun A a w => (Return a, w).

#[global] Instance M_bind : MBind M := fun A B k m w =>
  match m w with
  | (Return a, w') => k a w'
  | (Throw e, w') => (Throw e, w')
  end.

Definition throw {A : Type} (e : JsExn) : M A := fun w => (Throw e, w).

Definition outcome {A : Type} (r : Result A * World) : Result A := r.1.
Definition world_after {A : Type} (r : Result A * World) : World := r.2.

(** ** Primitive effects *)

Definition getHeap : M (gmap loc Props) := fun w => (Return (heap w), w).

(** An object created by a literal or by [new]: a reference that the store
    does not hold yet. *)
Definition alloc (o : Props) : M JsValue := fun w =>
  let l := fresh (dom (heap w)) in
  (Return (VRef l), set_heap (<[l := o]> (heap w)) w).

(** [v[k]].  Only own properties are modelled (and [length]); none of the
    names the library reads ([config_], [payload], [data]) is inherited. *)
Definition getProp (v : JsValue) (k : string) : M JsValue := fun w =>
  match v with
  | VUndefined | VNull => (Throw JsTypeError, w)
  | VStr s =>
      if String.eqb k "length" then (Return (VNum (Z.of_nat (String.length s))), w)
      else (Return (field (ownProps (heap w) v) k), w)
  | VArr items =>
      if String.eqb k "length" then (Return (VNum (Z.of_nat (List.length items))), w)
      else (Return (field (ownProps (heap w) v) k), w)
  | _ => (Return (field (ownProps (heap w) v) k), w)
  end.

(** [v[k] = x] in strict code (a class body is strict): writes the object
    that [v] refers to, and throws on [undefined], [null] and primitives.  A
    value without identity behaves as a frozen object. *)
Definition setProp (v : JsValue) (k : string) (x : JsValue) : M unit := fun w =>
  match v with
  | VRef l =>
      (Return tt, set_heap (<[l := <[k := x]> (default ∅ (heap w !! l))]> (heap w)) w)
  | _ => (Throw JsTypeError, w)
  end.

(** A parameter with a default value takes it when the argument is
    [undefined] (or omitted). *)
Definition defaultParam (arg dflt : JsValue) : JsValue :=
  match arg with
  | VUndefined => dflt
  | _ => arg
  end.

Definition includes (l : list Z) (x : Z) : bool := existsb (Z.eqb x) l.

(** ** The library *)

(** The binding [const DEFAULT_CONFIG]: an object of the store, created when
    the script is loaded. *)
Definition DEFAULT_CONFIG : loc := 1%positive.

Definition DEFAULT_CONFIG_literal : Props :=
  {[ "project" := VNull; "version" := VStr "latest" ]}.

(** The world once the script has been loaded. *)
Definition loaded : World := mkWorld {[ DEFAULT_CONFIG := DEFAULT_CONFIG_literal ]} [].

Definition access_url (project key version : JsValue) : string :=
  "https://secretmanager.googleapis.com/v1/projects/" +:+ toString project +:+
  "/secrets/" +:+ toString key +:+ "/versions/" +:+ toString version +:+ ":access".

Definition secrets_url (project key : JsValue) : string :=
  "https://secretmanager.googleapis.com/v1/projects/" +:+ toString project +:+
  "/secrets?secretId=" +:+ toString key.

Definition addVersion_url (project key : JsValue) : string :=
  "https://secretmanager.googleapis.com/v1/projects/" +:+ toString project +:+
  "/secrets/" +:+ toString key +:+ ":addVersion".

Section Library.
Context `{Platform}.

(** [UrlFetchApp.fetch(url, params)]: the request is logged and answered. *)
Definition fetch (u : string) (p : JsValue) : M Response := fun w =>
  let r := mkRequest u p in
  (Return (UrlFetchApp_fetch (fetched w) r), log_fetch r w).

Definition getOAuthToken : M string := fun w =>
  (Return (ScriptApp_getOAuthToken (fetched w)), w).

Definition parse (text : string) : M JsValue :=
  match JSON_parse text with
  | Some v => mret v
  | None => throw JsSyntaxError
  end.

Definition headers (token : string) : JsValue :=
  VObj [("Authorization", VStr ("Bearer " +:+ token));
        ("Accept", VStr "application/json")].

Definition post_params (payload : JsValue) (token : string) : JsValue :=
  VObj [("method", VStr "POST");
        ("muteHttpExceptions", VBool true);
        ("payload", JSON_stringify payload);
        ("contentType", VStr "application/json");
        ("headers", headers token)].

Definition access_params (token : string) : JsValue :=
  VObj [("muteHttpExceptions", VBool true); ("headers", headers token)].

End Library.

(** *** [class GCSecretManager]: a method takes its receiver [this] first *)
Module GCSecretManager.
Section Methods.
Context `{Platform}.

(** [constructor(config = DEFAULT_CONFIG) { this.config_ = config; }] *)
Definition constructor (config : JsValue) : M JsValue :=
  let config := defaultParam config (VRef DEFAULT_CONFIG) in
  alloc {[ "config_" := config ]}.

Definition setProject (this project : JsValue) : M JsValue :=
  config_ ← getProp this "config_";
  _ ← setProp config_ "project" project;
  mret this.

Definition setVersion (this version : JsValue) : M JsValue :=
  config_ ← getProp this "config_";
  _ ← setProp config_ "version" version;
  mret this.

(** [{ ...DEFAULT_CONFIG, ...this.config_, ...config }] is a local object
    literal: its properties are handed to the caller as a map. *)
Definition getConfig_ (this config : JsValue) : M Props :=
  config_ ← getProp this "config_";
  store ← getHeap;
  let mergedConfig :=
    spread (spread (ownProps store (VRef DEFAULT_CONFIG)) (ownProps store config_))
           (ownProps store config) in
  if negb (toBoolean (field mergedConfig "project"))
  then throw (JsError "Google Cloud Project is required")
  else mret mergedConfig.

Definition getSecret (this project key version : JsValue) : M JsValue :=
  let version := defaultParam version (VStr "latest") in
  token ← getOAuthToken;
  response ← fetch (access_url project key version) (access_params token);
  let responseCode := getResponseCode response in
  if (responseCode =? 403)%Z then throw (JsError "Permission denied")
  else if (responseCode =? 404)%Z then mret VUndefined
  else
    parsed ← parse (getContentText response);
    payload ← getProp parsed "payload";
    data ← getProp payload "data";
    let decodedData := Utilities_base64Decode data in
    mret (Blob_getDataAsString decodedData).

Definition createSecret (this project key : JsValue) : M Response :=
  let payload := VObj [("replication", VObj [("automatic", VObj [])])] in
  token ← getOAuthToken;
  fetch (secrets_url project key) (post_params payload token).

Definition createSecretVersion (this project key value : JsValue) : M Response :=
  let payload := VObj [("payload", VObj [("data", Utilities_base64Encode value)])] in
  token ← getOAuthToken;
  fetch (addVersion_url project key) (post_params payload token).

Definition get (this key config : JsValue) : M JsValue :=
  let config := defaultParam config (VObj []) in
  mergedConfig ← getConfig_ this config;
  getSecret this (field mergedConfig "project") key (field mergedConfig "version").

Definition set (this key value config : JsValue) : M JsValue :=
  let config := defaultParam config (VObj []) in
  mergedConfig ← getConfig_ this config;
  createSecretResponse ← createSecret this (field mergedConfig "project") key;
  if negb (includes [200; 409] (getResponseCode createSecretResponse))
  then throw (JsError
    ("Unexpected response code from the Secret Manager when creating a new secret: "
     +:+ toString (VNum (getResponseCode createSecretResponse))))
  else
    createSecretVersionResponse ←
      createSecretVersion this (field mergedConfig "project") key value;
    if negb (getResponseCode createSecretVersionResponse =? 200)%Z
    then throw (JsError
      ("Unexpected response code from the Secret Manager when creating a secret version: "
       +:+ toString (VNum (getResponseCode createSecretVersionResponse))))
    else mret VUndefined.

End Methods.
End GCSecretManager.

(** *** The functions of the script *)
Section Functions.
Context `{Platform}.

(** [new GCSecretManager({ ...DEFAULT_CONFIG, ...config })]: the literal is
    a new object of the store. *)
Definition init (config : JsValue) : M JsValue :=
  let config := defaultParam config (VObj []) in
  store ← getHeap;
  literal ← alloc (spread (ownProps store (VRef DEFAULT_CONFIG)) (ownProps store config));
  GCSecretManager.constructor literal.

Definition get (key config : JsValue) : M JsValue :=
  let config := defaultParam config (VObj []) in
  this ← init config;
  GCSecretManager.get this key VUndefined.

Definition set (key value config : JsValue) : M JsValue :=
  let config := defaultParam config (VObj []) in
  this ← init config;
  GCSecretManager.set this key value VUndefined.

Definition getSecret (project key version : JsValue) : M JsValue :=
  let version := defaultParam version (VStr "latest") in
  this ← init VUndefined;
  GCSecretManager.getSecret this project key version.

Definition createSecret (project key : JsValue) : M Response :=
  this ← init VUndefined;
  GCSecretManager.createSecret this project key.

Definition createSecretVersion (project key value : JsValue) : M Response :=
  this ← init VUndefined;
  GCSecretManager.createSecretVersion this project key value.

Definition setProject (project : JsValue) : M JsValue :=
  this ← init VUndefined;
  GCSecretManager.setProject this project.

Definition setVersion (version : JsValue) : M JsValue :=
  this ← init VUndefined;
  GCSecretManager.setVersion this version.

End Functions.

(** ** A concrete platform

    The test suite runs the library against mocks: [Utilities] with the
    identity for [base64Encode], [base64Decode] and the blob's
    [getDataAsString], a fixed OAuth token, and a [fetch] whose responses are
    scripted.  [JSON] is the real one there; here it is a reader and a
    printer for the JSON of [JsValue] (numbers without fraction or exponent,
    characters below 256). *)
Module JSON.

Definition dquote : ascii := Ascii.ascii_of_nat 34.
Definition backslash : ascii := Ascii.ascii_of_nat 92.

Definition is_ws (c : ascii) : bool :=
  let n := Ascii.nat_of_ascii c in
  (n =? 32)%nat || (n =? 9)%nat || (n =? 10)%nat || (n =? 13)%nat.

Fixpoint skip_ws (s : string) : string :=
  match s with
  | String c rest => if is_ws c then skip_ws rest else s
  | EmptyString => s
  end.

Definition digit_of (c : ascii) : option Z :=
  let n := Ascii.nat_of_ascii c in
  if (48 <=? n)%nat && (n <=? 57)%nat then Some (Z.of_nat (n - 48)) else None.

Definition hex_of (c : ascii) : option nat :=
  let n := Ascii.nat_of_ascii c in
  if (48 <=? n)%nat && (n <=? 57)%nat then Some (n - 48)%nat
  else if (97 <=? n)%nat && (n <=? 102)%nat then Some (n - 87)%nat
  else if (65 <=? n)%nat && (n <=? 70)%nat then Some (n - 55)%nat
  else None.

(** The digits at the head of [s], read on top of [acc]. *)
Fixpoint read_digits (acc : Z) (s : string) : Z * string :=
  match s with
  | String c rest =>
      match digit_of c with
      | Some d => read_digits (10 * acc + d) rest
      | None => (acc, s)
      end
  | EmptyString => (acc, s)
  end.

Definition starts_number_tail (s : string) : bool :=
  match s with
  | String c _ =>
      let n := Ascii.nat_of_ascii c in
      (n =? 46)%nat || (n =? 101)%nat || (n =? 69)%nat
  | EmptyString => false
  end.

(** An integer: an optional minus sign, then [0] or digits without a
    leading zero. *)
Definition read_number (s : string) : option (JsValue * string) :=
  let '(neg, body) :=
    match s with
    | String "-" rest => (true, rest)
    | _ => (false, s)
    end in
  match body with
  | String c rest =>
      match digit_of c with
      | Some d =>
          let '(n, rest') := if (d =? 0)%Z then (0, rest) else read_digits d rest in
          if starts_number_tail rest' then None
          else match rest' with
               | String c' _ =>
                   if (d =? 0)%Z && bool_decide (is_Some (digit_of c')) then None
                   else Some (VNum (if neg then - n else n), rest')
               | EmptyString => Some (VNum (if neg then - n else n), rest')
               end
      | None => None
      end
  | EmptyString => None
  end.

(** The characters of a string up to its closing quote; the opening quote
    has been read. *)
Fixpoint read_chars (s : string) : option (string * string) :=
  match s with
  | EmptyString => None
  | String c rest =>
      if Ascii.eqb c dquote then Some (EmptyString, rest)
      else if Ascii.eqb c backslash then
        match rest with
        | String e rest' =>
            let continue (ch : ascii) (tail : string) :=
              match read_chars tail with
              | Some (str, out) => Some (String ch str, out)
              | None => None
              end in
            if Ascii.eqb e dquote then continue dquote rest'
            else if Ascii.eqb e backslash then continue backslash rest'
            else match e, rest' with
                 | "/"%char, _ => continue "/"%char rest'
                 | "b"%char, _ => continue (Ascii.ascii_of_nat 8) rest'
                 | "f"%char, _ => continue (Ascii.ascii_of_nat 12) rest'
                 | "n"%char, _ => continue (Ascii.ascii_of_nat 10) rest'
                 | "r"%char, _ => continue (Ascii.ascii_of_nat 13) rest'
                 | "t"%char, _ => continue (Ascii.ascii_of_nat 9) rest'
                 | "u"%char, String "0" (String "0" (String h1 (String h2 tail))) =>
                     match hex_of h1, hex_of h2 with
                     | Some a, Some b => continue (Ascii.ascii_of_nat (16 * a + b)) tail
                     | _, _ => None
                     end
                 | _, _ => None
                 end
        | EmptyString => None
        end
      else if (Ascii.nat_of_ascii c <? 32)%nat then None
      else match read_chars rest with
           | Some (str, out) => Some (String c str, out)
           | None => None
           end
  end.

Definition expect (c : ascii) (s : string) : option string :=
  match skip_ws s with
  | String c' rest => if Ascii.eqb c c' then Some rest else None
  | EmptyString => None
  end.

(** A value at the head of [s], and what follows it.  [fuel] bounds the
    nesting and the number of items; the length of the text is enough. *)
Fixpoint read_value (fuel : nat) (s : string) : option (JsValue * string) :=
  match fuel with
  | O => None
  | S fuel' =>
      match skip_ws s with
      | String "n" (String "u" (String "l" (String "l" rest))) => Some (VNull, rest)
      | String "t" (String "r" (String "u" (String "e" rest))) => Some (VBool true, rest)
      | String "f" (String "a" (String "l" (String "s" (String "e" rest)))) =>
          Some (VBool false, rest)
      | String "[" rest =>
          match skip_ws rest with
          | String "]" rest' => Some (VArr [], rest')
          | _ =>
              match read_items fuel' rest with
              | Some (items, rest') => Some (VArr items, rest')
              | None => None
              end
          end
      | String "{" rest =>
          match skip_ws rest with
          | String "}" rest' => Some (VObj [], rest')
          | _ =>
              match read_members fuel' rest with
              | Some (fields, rest') => Some (VObj fields, rest')
              | None => None
              end
          end
      | String c rest as s' =>
          if Ascii.eqb c dquote then
            match read_chars rest with
            | Some (str, rest') => Some (VStr str, rest')
            | None => None
            end
          else read_number s'
      | EmptyString => None
      end
  end
with read_items (fuel : nat) (s : string) : option (list JsValue * string) :=
  match fuel with
  | O => None
  | S fuel' =>
      match read_value fuel' s with
      | Some (v, rest) =>
          match skip_ws rest with
          | String "]" rest' => Some ([v], rest')
          | String "," rest' =>
              match read_items fuel' rest' with
              | Some (vs, out) => Some (v :: vs, out)
              | None => None
              end
          | _ => None
          end
      | None => None
      end
  end
with read_members (fuel : nat) (s : string)
    : option (list (string * JsValue) * string) :=
  match fuel with
  | O => None
  | S fuel' =>
      match expect dquote s with
      | Some rest =>
          match read_chars rest with
          | Some (k, rest1) =>
              match expect ":" rest1 with
              | Some rest2 =>
                  match read_value fuel' rest2 with
                  | Some (v, rest3) =>
                      match skip_ws rest3 with
                      | String "}" rest' => Some ([(k, v)], rest')
                      | String "," rest' =>
                          match read_members fuel' rest' with
                          | Some (kvs, out) => Some ((k, v) :: kvs, out)
                          | None => None
                          end
                      | _ => None
                      end
                  | None => None
                  end
              | None => None
              end
          | None => None
          end
      | None => None
      end
  end.

(** [JSON.parse(text)]: one value and nothing but white space after it. *)
Definition parse (text : string) : option JsValue :=
  match read_value (S (String.length text)) text with
  | Some (v, rest) =>
      match skip_ws rest with
      | EmptyString => Some v
      | _ => None
      end
  | None => None
  end.

Definition hex_digit (n : nat) : ascii :=
  if (n <? 10)%nat then Ascii.ascii_of_nat (48 + n) else Ascii.ascii_of_nat (87 + n).

Fixpoint quote_chars (s : string) : string :=
  match s with
  | EmptyString => String dquote EmptyString
  | String c rest =>
      let n := Ascii.nat_of_ascii c in
      if Ascii.eqb c dquote then String backslash (String dquote (quote_chars rest))
      else if Ascii.eqb c backslash then String backslash (String backslash (quote_chars rest))
      else if (n =? 8)%nat then String backslash (String "b" (quote_chars rest))
      else if (n =? 12)%nat then String backslash (String "f" (quote_chars rest))
      else if (n =? 10)%nat then String backslash (String "n" (quote_chars rest))
      else if (n =? 13)%nat then String backslash (String "r" (quote_chars rest))
      else if (n =? 9)%nat then String backslash (String "t" (quote_chars rest))
      else if (n <? 32)%nat then
        String backslash (String "u" (String "0" (String "0"
          (String (hex_digit (n / 16)) (String (hex_digit (n mod 16)) (quote_chars rest))))))
      else String c (quote_chars rest)
  end.

Definition quote (s : string) : string := String dquote (quote_chars s).

(** The text of a value; [None] where [JSON.stringify] gives [undefined].
    An [undefined] item of an array prints as [null], an [undefined] field
    of an object is left out.  An object of the store is not printed: the
    printer does not see the store. *)
Fixpoint print (v : JsValue) : option string :=
  match v with
  | VUndefined => None
  | VNull => Some "null"
  | VBool true => Some "true"
  | VBool false => Some "false"
  | VNum n => Some (pretty n)
  | VStr s => Some (quote s)
  | VArr items =>
      Some ("[" +:+ join "," (List.map (fun x => default "null" (print x)) items) +:+ "]")
  | VObj fields =>
      Some ("{" +:+
            join "," (omap (fun kv => match print kv.2 with
                                      | Some t => Some (quote kv.1 +:+ ":" +:+ t)
                                      | None => None
                                      end) fields)
            +:+ "}")
  | VRef _ => None
  end.

(** [JSON.stringify(v)] *)
Definition stringify (v : JsValue) : JsValue :=
  match print v with
  | Some t => VStr t
  | None => VUndefined
  end.

End JSON.

(** The mocks of the test suite.  The [n]-th call of [fetch] is answered by
    the [n]-th response of [script] ([mockReturnValueOnce]), and by
    [fallback] once the script is exhausted. *)
Definition mocks (script : list Response) (fallback : Response) : Platform := {|
  UrlFetchApp_fetch := fun log _ => nth (List.length log) script fallback;
  ScriptApp_getOAuthToken := fun _ => "mock-oauth-token";
  Utilities_base64Encode := fun val => val;
  Utilities_base64Decode := fun val => val;
  Blob_getDataAsString := fun decodedData => decodedData;
  JSON_parse := JSON.parse;
  JSON_stringify := JSON.stringify
|}.

Definition ok : Response := mkResponse 200 "".

(** ** The two surfaces

    Every operation exists twice: as a function of the script, which makes a
    handle of its own with [init], and as a method of a handle that the
    caller holds. *)
Inductive Surface : Type :=
  | Script
  | Handle (h : loc).

Section Surfaces.
Context `{Platform}.

Definition call_get (s : Surface) (key config : JsValue) : M JsValue :=
  match s with
  | Script => get key config
  | Handle h => GCSecretManager.get (VRef h) key config
  end.

Definition call_set (s : Surface) (key value config : JsValue) : M JsValue :=
  match s with
  | Script => set key value config
  | Handle h => GCSecretManager.set (VRef h) key value config
  end.

Definition call_getSecret (s : Surface) (project key version : JsValue) : M JsValue :=
  match s with
  | Script => getSecret project key version
  | Handle h => GCSecretManager.getSecret (VRef h) project key version
  end.

Definition call_createSecret (s : Surface) (project key : JsValue) : M Response :=
  match s with
  | Script => createSecret project key
  | Handle h => GCSecretManager.createSecret (VRef h) project key
  end.

Definition call_createSecretVersion (s : Surface) (project key value : JsValue)
    : M Response :=
  match s with
  | Script => createSecretVersion project key value
  | Handle h => GCSecretManager.createSecretVersion (VRef h) project key value
  end.

End Surfaces.

(** The two read operations. *)
Inductive Read : Type :=
  | Get (key config : JsValue)
  | GetSecret (project key version : JsValue).

Definition call_read `{Platform} (s : Surface) (op : Read) : M JsValue :=
  match op with
  | Get key config => call_get s key config
  | GetSecret project key version => call_getSecret s project key version
  end.

(** A chain of setter calls [this.setProject(p).setVersion(v)...]: each
    call is made on what the call before it returned. *)
Inductive Setter : Type :=
  | SetProject (project : JsValue)
  | SetVersion (version : JsValue).

Definition call_setter (this : JsValue) (c : Setter) : M JsValue :=
  match c with
  | SetProject project => GCSecretManager.setProject this project
  | SetVersion version => GCSecretManager.setVersion this version
  end.

Fixpoint chain (this : JsValue) (calls : list Setter) : M JsValue :=
  match calls with
  | [] => mret this
  | c :: rest => this' ← call_setter this c; chain this' rest
  end.

(** The configuration object that a handle stores. *)
Definition stored (store : gmap loc Props) (h : loc) : JsValue :=
  field (ownProps store (VRef h)) "config_".

(** The three layers that an operation on surface [s] with the call-level
    argument [config] resolves, lowest precedence first.  A function of the
    script has no instance-level layer of its own: its argument is the
    configuration of the handle it makes. *)
Definition defaults (w : World) : Props := ownProps (heap w) (VRef DEFAULT_CONFIG).

Definition instance_level (w : World) (s : Surface) (config : JsValue) : Props :=
  match s with
  | Script => ownProps (heap w) (defaultParam config (VObj []))
  | Handle h => ownProps (heap w) (stored (heap w) h)
  end.

Definition call_level (w : World) (s : Surface) (config : JsValue) : Props :=
  match s with
  | Script => ∅
  | Handle _ => ownProps (heap w) (defaultParam config (VObj []))
  end.

(** The overlay of the specification, per name: the call-level value if
    the name is present there, else the instance-level one, else the
    default; a name that no layer has reads as [undefined]. *)
Definition overlay (dflt inst call : Props) (k : string) : JsValue :=
  match call !! k with
  | Some v => v
  | None =>
      match inst !! k with
      | Some v => v
      | None => default VUndefined (dflt !! k)
      end
  end.

Definition effective (w : World) (s : Surface) (config : JsValue) (k : string) : JsValue :=
  overlay (defaults w) (instance_level w s config) (call_level w s config) k.

(** The script has been loaded: the store holds [DEFAULT_CONFIG]. *)
Definition script_loaded (w : World) : Prop := is_Some (heap w !! DEFAULT_CONFIG).

(** The errors of the specification, as the source throws them. *)
Definition ConfigurationError : JsExn := JsError "Google Cloud Project is required".
Definition PermissionError : JsExn := JsError "Permission denied".

Definition UnexpectedResponseError_createSecret (code : Z) : JsExn :=
  JsError ("Unexpected response code from the Secret Manager when creating a new secret: "
           +:+ pretty code).

Definition UnexpectedResponseError_createSecretVersion (code : Z) : JsExn :=
  JsError ("Unexpected response code from the Secret Manager when creating a secret version: "
           +:+ pretty code).

(** An error that carries the status code [code] in its message. *)
Definition carries_status (e : JsExn) (code : Z) : Prop :=
  match e with
  | JsError message => ∃ prefix, message = prefix +:+ pretty code
  | _ => False
  end.

(** A [project] that is missing, [null] or empty. *)
Definition missing (project : JsValue) : Prop :=
  project = VUndefined ∨ project = VNull ∨ project = VStr "".

(** ** Vocabulary of the properties *)

(** The two objects that [init(config)] creates in the world [w]: the copy
    of the configuration and the handle that stores a reference to it. *)
Definition init_config_loc (w : World) : loc := fresh (dom (heap w)).

Definition init_copy (w : World) (config : JsValue) : Props :=
  spread (defaults w) (ownProps (heap w) (defaultParam config (VObj []))).

Definition init_store (w : World) (config : JsValue) : gmap loc Props :=
  <[init_config_loc w := init_copy w config]> (heap w).

Definition init_handle_loc (w : World) (config : JsValue) : loc :=
  fresh (dom (init_store w config)).

Definition init_world (w : World) (config : JsValue) : World :=
  set_heap (<[init_handle_loc w config := {[ "config_" := VRef (init_config_loc w) ]}]>
              (init_store w config)) w.

(** The world in which an operation on surface [s] runs its method: for a
    function of the script, the one that [init(config)] leaves. *)
Definition entered (w : World) (s : Surface) (config : JsValue) : World :=
  match s with
  | Script => init_world w config
  | Handle _ => w
  end.

(** The handle whose method an operation on surface [s] runs. *)
Definition receiver (w : World) (s : Surface) (config : JsValue) : loc :=
  match s with
  | Script => init_handle_loc w config
  | Handle h => h
  end.

(** The call-level argument that the method is given. *)
Definition passed (s : Surface) (config : JsValue) : JsValue :=
  match s with
  | Script => VObj []
  | Handle _ => defaultParam config (VObj [])
  end.

(** The store after [target[k] = x] on the object at [c]. *)
Definition write (c : loc) (k : string) (x : JsValue) (w : World) : World :=
  set_heap (<[c := <[k := x]> (default ∅ (heap w !! c))]> (heap w)) w.

Section Vocabulary.
Context `{Platform}.

(** The requests that the three primitives build when [log] holds the
    requests made so far. *)
Definition access_request (log : list Request) (project key version : JsValue) : Request :=
  mkRequest (access_url project key (defaultParam version (VStr "latest")))
            (access_params (ScriptApp_getOAuthToken log)).

Definition createSecret_request (log : list Request) (project key : JsValue) : Request :=
  mkRequest (secrets_url project key)
            (post_params (VObj [("replication", VObj [("automatic", VObj [])])])
                         (ScriptApp_getOAuthToken log)).

Definition createSecretVersion_request (log : list Request) (project key value : JsValue)
    : Request :=
  mkRequest (addVersion_url project key)
            (post_params (VObj [("payload", VObj [("data", Utilities_base64Encode value)])])
                         (ScriptApp_getOAuthToken log)).

(** What [getSecret] does with the response. *)
Definition respond (response : Response) : M JsValue :=
  if (getResponseCode response =? 403)%Z then throw (JsError "Permission denied")
  else if (getResponseCode response =? 404)%Z then mret VUndefined
  else
    parsed ← parse (getContentText response);
    payload ← getProp parsed "payload";
    data ← getProp payload "data";
    mret (Blob_getDataAsString (Utilities_base64Decode data)).

(** [setProject(p).setVersion(v).get(k)] *)
Definition chained (p v key : JsValue) : M JsValue :=
  this ← setProject p;
  this ← GCSecretManager.setVersion this v;
  GCSecretManager.get this key VUndefined.

End Vocabulary.

(** ** Scenes of the test suite *)

(** [{ project: "my-project" }] *)
Definition my_project : JsValue := VObj [("project", VStr "my-project")].

(** A handle made by [init({ project: "my-project" })] right after the
    script is loaded, as in the tests of the storage methods. *)
Definition manager : Surface := Handle (init_handle_loc loaded my_project).

Definition managed : World := init_world loaded my_project.

(** The body [{"payload":{"data":"mock-secret"}}] of the tests. *)
Definition mock_secret_body : string :=
  toString (JSON.stringify (VObj [("payload", VObj [("data", VStr "mock-secret")])])).

Definition latest_of_secret_key : Request :=
  mkRequest
    "https://secretmanager.googleapis.com/v1/projects/my-project/secrets/secret-key/versions/latest:access"
    (VObj [("muteHttpExceptions", VBool true);
           ("headers", VObj [("Authorization", VStr "Bearer mock-oauth-token");
                             ("Accept", VStr "application/json")])]).

Definition denied : Platform := mocks [mkResponse 403 ""] ok.

Definition absent : Platform := mocks [mkResponse 404 ""] ok.

Definition found : Platform := mocks [mkResponse 200 mock_secret_body] ok.

(** A service that answers the first request with status 500. *)
Definition service_down : Platform := mocks [mkResponse 500 ""] ok.

(** A service that answers the first request with status 409 (the secret
    exists already) and the next ones with status 200. *)
Definition secret_exists : Platform := mocks [mkResponse 409 ""] ok.

(** The body that the service sends with an internal error, and a service
    that answers the first request with it and status 500. *)
Definition internal_error_body : string :=
  toString (JSON.stringify
    (VObj [("error", VObj [("code", VNum 500);
                           ("message", VStr "Internal error encountered.");
                           ("status", VStr "INTERNAL")])])).

Definition failing : Platform := mocks [mkResponse 500 internal_error_body] ok.

(** The same status with a body that has a payload. *)
Definition failing_with_payload : Platform := mocks [mkResponse 500 mock_secret_body] ok.

(** The add-version request of
    [manager.set("new-secret", "new-secret-value")]. *)
Definition add_version_of_new_secret : Request :=
  createSecretVersion_request (H := secret_exists)
    [createSecret_request (H := secret_exists) [] (VStr "my-project") (VStr "new-secret")]
    (VStr "my-project") (VStr "new-secret") (VStr "new-secret-value").

(** An object [{ project: "my-project" }] of the caller in the store, two
    handles made from it one after the other, and the world after the first
    handle has been given another project and another version. *)
Definition callers_object : loc := 2%positive.

Definition with_callers_object : World :=
  set_heap (<[callers_object := {[ "project" := VStr "my-project" ]}]> (heap loaded)) loaded.

Definition first_handle : loc := init_handle_loc with_callers_object (VRef callers_object).

Definition second_world : World :=
  world_after (init (VRef callers_object)
                    (init_world with_callers_object (VRef callers_object))).

Definition second_handle : loc :=
  init_handle_loc (init_world with_callers_object (VRef callers_object))
                  (VRef callers_object).

Definition rewritten : World :=
  world_after (chain (VRef first_handle)
                     [SetProject (VStr "other-project"); SetVersion (VNum 3)] second_world).

(** A handle made by [init()], without a project. *)
Definition bare : Surface := Handle (init_handle_loc loaded VUndefined).

Definition bare_world : World := init_world loaded VUndefined.

(** [s] between double quotes. *)
Definition quoted (s : string) : string :=
  String JSON.dquote (s +:+ String JSON.dquote EmptyString).

(** The options of the two requests of
    [set("new-secret", "new-secret-value")], with their payloads as the
    test suite expects them:
    [{"replication":{"automatic":{}}}] and
    [{"payload":{"data":"new-secret-value"}}]. *)
Definition expected_post (payload : string) : JsValue :=
  VObj [("method", VStr "POST");
        ("muteHttpExceptions", VBool true);
        ("payload", VStr payload);
        ("contentType", VStr "application/json");
        ("headers", VObj [("Authorization", VStr "Bearer mock-oauth-token");
                          ("Accept", VStr "application/json")])].

Definition expected_create : Request :=
  mkRequest
    "https://secretmanager.googleapis.com/v1/projects/my-project/secrets?secretId=new-secret"
    (expected_post ("{" +:+ quoted "replication" +:+ ":{" +:+ quoted "automatic" +:+ ":{}}}")).

Definition expected_add_version : Request :=
  mkRequest
    "https://secretmanager.googleapis.com/v1/projects/my-project/secrets/new-secret:addVersion"
    (expected_post ("{" +:+ quoted "payload" +:+ ":{" +:+ quoted "data" +:+ ":"
                    +:+ quoted "new-secret-value" +:+ "}}")).

(** ** Vocabulary and scenes of the further properties *)

(** A service that creates the secret and refuses the version: status 200,
    then 403. *)
Definition version_refused : Platform := mocks [ok; mkResponse 403 ""] ok.

(** [{ project: 0 }] *)
Definition project_zero : JsValue := VObj [("project", VNum 0)].

(** The handle of [init({ project: "my-project", version: 3 })]. *)
Definition pinned_config : JsValue :=
  VObj [("project", VStr "my-project"); ("version", VNum 3)].

Definition pinned : Surface := Handle (init_handle_loc loaded pinned_config).

Definition pinned_world : World := init_world loaded pinned_config.

(** The option [k] of a request. *)
Definition param (r : Request) (k : string) : JsValue := field (ownProps ∅ (params r)) k.

Section Sending.
Context `{Platform}.

(** The request [r], made when [log] holds the requests made before it,
    asks the transport to hand over every status as a response, accepts
    JSON and carries the OAuth token of that moment. *)
Definition sent_as_required (log : list Request) (r : Request) : Prop :=
  param r "muteHttpExceptions" = VBool true
  ∧ param r "headers"
    = VObj [("Authorization", VStr ("Bearer " +:+ ScriptApp_getOAuthToken log));
            ("Accept", VStr "application/json")].

Fixpoint all_sent_as_required (log new : list Request) : Prop :=
  match new with
  | [] => True
  | r :: rest => sent_as_required log r ∧ all_sent_as_required (log ++ [r]) rest
  end.

(** The run [r], started in the world [w], has made at most [n] requests,
    each of them as required. *)
Definition makes_at_most {A : Type} (n : nat) (w : World) (r : Result A * World) : Prop :=
  ∃ new, fetched (world_after r) = (fetched w ++ new)%list
         ∧ (List.length new ≤ n)%nat
         ∧ all_sent_as_required (fetched w) new.

End Sending.

(** The mocks with an OAuth token that changes from one request to the
    next. *)
Definition rotating : Platform := {|
  UrlFetchApp_fetch := fun _ _ => ok;
  ScriptApp_getOAuthToken := fun log => "token-" +:+ pretty (List.length log);
  Utilities_base64Encode := fun val => val;
  Utilities_base64Decode := fun val => val;
  Blob_getDataAsString := fun decodedData => decodedData;
  JSON_parse := JSON.parse;
  JSON_stringify := JSON.stringify
|}.

(** The argument of the last [setProject] of a chain, and of its last
    [setVersion], if there is one. *)
Fixpoint last_project (calls : list Setter) : option JsValue :=
  match calls with
  | [] => None
  | c :: rest =>
      match last_project rest with
      | Some p => Some p
      | None => match c with
                | SetProject p => Some p
                | SetVersion _ => None
                end
      end
  end.

Fixpoint last_version (calls : list Setter) : option JsValue :=
  match calls with
  | [] => None
  | c :: rest =>
      match last_version rest with
      | Some v => Some v
      | None => match c with
                | SetVersion v => Some v
                | SetProject _ => None
                end
      end
  end.

(** A value that holds no reference to an object of the store, at any
    depth: what [JSON.parse] makes. *)
Fixpoint refless (v : JsValue) : bool :=
  match v with
  | VRef _ => false
  | VArr items => forallb refless items
  | VObj fields => forallb (fun kv => refless kv.2) fields
  | _ => true
  end.

(** An argument that the caller can have in the world [w]: a reference is to
    an object that the store holds. *)
Definition held (w : World) (v : JsValue) : Prop :=
  match v with
  | VRef l => l ∈ dom (heap w)
  | _ => True
  end.

Section CallConfig.
Context `{Platform}.

(** [init().get(key, config)] and [init().set(key, value, config)]: the
    configuration is given to the call, not to [init]. *)
Definition get_with_call_config (key config : JsValue) : M JsValue :=
  this ← init VUndefined;
  GCSecretManager.get this key config.

Definition set_with_call_config (key value config : JsValue) : M JsValue :=
  this ← init VUndefined;
  GCSecretManager.set this key value config.

End CallConfig.

(** The body [{"payload":{}}]: a payload without data. *)
Definition empty_payload_body : string :=
  toString (JSON.stringify (VObj [("payload", VObj [])])).

(** A service that answers with status 200 and a payload without data. *)
Definition dataless : Platform := mocks [mkResponse 200 empty_payload_body] ok.

(** A service that answers with status 200 and an empty body. *)
Definition bodiless : Platform := mocks [] ok.

(** [new GCSecretManager().setProject(p)]: the handle is made by the
    constructor without an argument, not by [init]. *)
Definition construct_and_setProject (p : JsValue) : M JsValue :=
  this ← GCSecretManager.constructor VUndefined;
  GCSecretManager.setProject this p.

Section SetterThenSet.
Context `{Platform}.

(** [this.setVersion(v).set(key, value, config)] *)
Definition setVersion_then_set (this v key value config : JsValue) : M JsValue :=
  this' ← GCSecretManager.setVersion this v;
  GCSecretManager.set this' key value config.

(** The script's [setProject(p)] and [setVersion(v)], their handles being
    dropped, and then the script's [get(key)] or [set(key, value)]. *)
Definition setters_then_get (p v key : JsValue) : M JsValue :=
  _ ← setProject p;
  _ ← setVersion v;
  get key VUndefined.

Definition setters_then_set (p v key value : JsValue) : M JsValue :=
  _ ← setProject p;
  _ ← setVersion v;
  set key value VUndefined.

End SetterThenSet.

(** [this.setProject(..).setVersion(..)....get(key)]: a chain of setters on
    a handle, then [get] on what the chain returns. *)
Definition chain_then_get `{Platform} (this : JsValue) (calls : list Setter)
    (key : JsValue) : M JsValue :=
  this' ← chain this calls;
  GCSecretManager.get this' key VUndefined.

(** * Properties *)

(** ** The monad *)

Lemma bind_Return {A B} (m : M A) (k : A -> M B) w a w' :
  m w = (Return a, w') -> (m ≫= k) w = k a w'.
Proof. intros E. unfold mbind, M_bind. by rewrite E. Qed.

Lemma bind_Throw {A B} (m : M A) (k : A -> M B) w e w' :
  m w = (Throw e, w') -> (m ≫= k) w = (Throw e, w').
Proof. intros E. unfold mbind, M_bind. by rewrite E. Qed.

(** ** Objects *)

Lemma field_spread a b k :
  field (spread a b) k = match b !! k with Some v => v | None => field a k end.
Proof.
  unfold field, spread. rewrite lookup_union.
  destruct (b !! k), (a !! k); reflexivity.
Qed.

Lemma lookup_spread a b k :
  spread a b !! k = match b !! k with Some v => Some v | None => a !! k end.
Proof.
  unfold spread. rewrite lookup_union.
  destruct (b !! k), (a !! k); reflexivity.
Qed.

Lemma field_merged dflt inst call k :
  field (spread (spread dflt inst) call) k = overlay dflt inst call k.
Proof. rewrite !field_spread. reflexivity. Qed.

Lemma toBoolean_missing v : missing v -> toBoolean v = false.
Proof. intros [-> | [-> | ->]]; reflexivity. Qed.

Lemma toBoolean_true_not_missing v : toBoolean v = true -> ¬ missing v.
Proof. intros E M. apply toBoolean_missing in M. congruence. Qed.

(** ** [init] *)

Lemma init_eq config w :
  init config w = (Return (VRef (init_handle_loc w config)), init_world w config).
Proof. reflexivity. Qed.

Lemma init_config_loc_fresh w : init_config_loc w ∉ dom (heap w).
Proof. unfold init_config_loc. apply is_fresh. Qed.

Lemma init_handle_loc_fresh w config :
  (init_handle_loc w config ∉ dom (heap w)) ∧ (init_handle_loc w config ≠ init_config_loc w).
Proof.
  pose proof (is_fresh (dom (init_store w config))) as F.
  fold (init_handle_loc w config) in F.
  unfold init_store in F. rewrite dom_insert_L in F. set_solver.
Qed.

Lemma init_world_old w config l :
  l ∈ dom (heap w) -> heap (init_world w config) !! l = heap w !! l.
Proof.
  intros In.
  destruct (init_handle_loc_fresh w config) as [Fh _].
  pose proof (init_config_loc_fresh w) as Fc.
  unfold init_world, set_heap, init_store; simpl.
  rewrite !lookup_insert_ne; [done | |]; intros E; rewrite E in *; contradiction.
Qed.

Lemma init_world_handle w config :
  heap (init_world w config) !! init_handle_loc w config
  = Some {[ "config_" := VRef (init_config_loc w) ]}.
Proof. simpl. apply lookup_insert_eq. Qed.

Lemma init_world_config w config :
  heap (init_world w config) !! init_config_loc w = Some (init_copy w config).
Proof.
  simpl. destruct (init_handle_loc_fresh w config) as [_ Ne].
  rewrite lookup_insert_ne by done. unfold init_store. apply lookup_insert_eq.
Qed.

Lemma init_world_stored w config :
  stored (heap (init_world w config)) (init_handle_loc w config) = VRef (init_config_loc w).
Proof.
  unfold stored, ownProps. rewrite init_world_handle. reflexivity.
Qed.

Lemma init_world_defaults w config :
  script_loaded w -> defaults (init_world w config) = defaults w.
Proof.
  intros L. unfold defaults, ownProps. rewrite init_world_old; [done |].
  by apply elem_of_dom.
Qed.

Lemma init_world_fetched w config : fetched (init_world w config) = fetched w.
Proof. reflexivity. Qed.

Lemma defaultParam_idem arg dflt :
  defaultParam (defaultParam arg dflt) dflt = defaultParam arg dflt.
Proof. destruct arg; try reflexivity. destruct dflt; reflexivity. Qed.

Lemma init_defaultParam config :
  init (defaultParam config (VObj [])) = init config.
Proof. destruct config; reflexivity. Qed.

Lemma entered_fetched w s config : fetched (entered w s config) = fetched w.
Proof. destruct s; reflexivity. Qed.

(** ** The methods, step by step *)
Section Steps.
Context `{Platform}.

Lemma getSecret_eq this project key version w :
  GCSecretManager.getSecret this project key version w
  = respond (UrlFetchApp_fetch (fetched w) (access_request (fetched w) project key version))
            (log_fetch (access_request (fetched w) project key version) w).
Proof. reflexivity. Qed.

Lemma createSecret_eq this project key w :
  GCSecretManager.createSecret this project key w
  = (Return (UrlFetchApp_fetch (fetched w) (createSecret_request (fetched w) project key)),
     log_fetch (createSecret_request (fetched w) project key) w).
Proof. reflexivity. Qed.

Lemma createSecretVersion_eq this project key value w :
  GCSecretManager.createSecretVersion this project key value w
  = (Return (UrlFetchApp_fetch (fetched w)
               (createSecretVersion_request (fetched w) project key value)),
     log_fetch (createSecretVersion_request (fetched w) project key value) w).
Proof. reflexivity. Qed.

(** The world is only read after the request: [respond] leaves it as it is. *)
Lemma getProp_world v k w : (getProp v k w).2 = w.
Proof. unfold getProp. destruct v; try reflexivity; destruct (String.eqb k "length"); reflexivity. Qed.

Lemma respond_world response w : (respond response w).2 = w.
Proof.
  unfold respond.
  destruct (getResponseCode response =? 403)%Z; [reflexivity |].
  destruct (getResponseCode response =? 404)%Z; [reflexivity |].
  unfold parse. destruct (JSON_parse (getContentText response)) as [parsed |]; [| reflexivity].
  unfold mbind, M_bind, mret, M_ret at 1.
  pose proof (getProp_world parsed "payload" w) as E1.
  destruct (getProp parsed "payload" w) as [[payload | e] w1]; simpl in E1; subst w1;
    [| reflexivity].
  pose proof (getProp_world payload "data" w) as E2.
  destruct (getProp payload "data" w) as [[data | e] w2]; simpl in E2; subst w2; reflexivity.
Qed.

Lemma getConfig__eq h config w :
  GCSecretManager.getConfig_ (VRef h) config w
  = (let mergedConfig :=
       spread (spread (defaults w) (ownProps (heap w) (stored (heap w) h)))
              (ownProps (heap w) config) in
     if toBoolean (field mergedConfig "project") then Return mergedConfig
     else Throw ConfigurationError, w).
Proof.
  unfold GCSecretManager.getConfig_, mbind, M_bind, getProp, getHeap. simpl.
  fold (stored (heap w) h). fold (defaults w).
  destruct (toBoolean _); reflexivity.
Qed.

End Steps.

Lemma lookup_init_copy w config k :
  init_copy w config !! k
  = match ownProps (heap w) (defaultParam config (VObj [])) !! k with
    | Some v => Some v
    | None => defaults w !! k
    end.
Proof. unfold init_copy. apply lookup_spread. Qed.

(** The layers that the method finds are those of [effective]. *)
Lemma overlay_entered w s config k :
  script_loaded w ->
  overlay (defaults (entered w s config))
          (ownProps (heap (entered w s config))
                    (stored (heap (entered w s config)) (receiver w s config)))
          (ownProps (heap (entered w s config)) (passed s config)) k
  = effective w s config k.
Proof.
  intros L. destruct s as [| h]; [| reflexivity].
  unfold effective, entered, receiver, passed, instance_level, call_level.
  rewrite init_world_defaults by done. rewrite init_world_stored.
  unfold ownProps at 1. rewrite init_world_config. simpl.
  unfold overlay. rewrite !lookup_empty. rewrite lookup_init_copy.
  destruct (ownProps (heap w) (defaultParam config (VObj [])) !! k); [reflexivity |].
  destruct (defaults w !! k) eqn:E; rewrite ?E; reflexivity.
Qed.

Section Resolution.
Context `{Platform}.

Lemma method_get_eq h key config w :
  GCSecretManager.get (VRef h) key config w
  = (let layer := overlay (defaults w) (ownProps (heap w) (stored (heap w) h))
                          (ownProps (heap w) (defaultParam config (VObj []))) in
     if toBoolean (layer "project")
     then GCSecretManager.getSecret (VRef h) (layer "project") key (layer "version") w
     else (Throw ConfigurationError, w)).
Proof.
  unfold GCSecretManager.get, mbind, M_bind. rewrite getConfig__eq. simpl.
  rewrite field_merged.
  destruct (toBoolean _); rewrite ?field_merged; reflexivity.
Qed.

Lemma method_set_eq h key value config w :
  GCSecretManager.set (VRef h) key value config w
  = (let layer := overlay (defaults w) (ownProps (heap w) (stored (heap w) h))
                          (ownProps (heap w) (defaultParam config (VObj []))) in
     if toBoolean (layer "project")
     then
       let request1 := createSecret_request (fetched w) (layer "project") key in
       let code1 := getResponseCode (UrlFetchApp_fetch (fetched w) request1) in
       let w1 := log_fetch request1 w in
       if includes [200; 409] code1
       then
         let request2 :=
           createSecretVersion_request (fetched w1) (layer "project") key value in
         let code2 := getResponseCode (UrlFetchApp_fetch (fetched w1) request2) in
         if (code2 =? 200)%Z
         then (Return VUndefined, log_fetch request2 w1)
         else (Throw (UnexpectedResponseError_createSecretVersion code2),
               log_fetch request2 w1)
       else (Throw (UnexpectedResponseError_createSecret code1), w1)
     else (Throw ConfigurationError, w)).
Proof.
  unfold GCSecretManager.set. unfold mbind at 1, M_bind at 1.
  rewrite getConfig__eq. cbv zeta. rewrite field_merged.
  destruct (toBoolean _); [| reflexivity].
  rewrite ?field_merged. unfold mbind at 1, M_bind at 1.
  rewrite createSecret_eq.
  destruct (includes _ _); [| reflexivity].
  unfold negb, mbind at 1, M_bind at 1.
  rewrite createSecretVersion_eq.
  destruct (_ =? 200)%Z; reflexivity.
Qed.

Lemma overlay_script w config k :
  script_loaded w ->
  overlay (defaults (init_world w config))
          (ownProps (heap (init_world w config))
                    (stored (heap (init_world w config)) (init_handle_loc w config)))
          (ownProps (heap (init_world w config)) (VObj [])) k
  = effective w Script config k.
Proof. apply (overlay_entered w Script config k). Qed.

Lemma call_get_eq s key config w :
  script_loaded w ->
  call_get s key config w
  = if toBoolean (effective w s config "project")
    then GCSecretManager.getSecret (VRef (receiver w s config))
           (effective w s config "project") key (effective w s config "version")
           (entered w s config)
    else (Throw ConfigurationError, entered w s config).
Proof.
  intros L. destruct s as [| h].
  - unfold call_get, get. cbv zeta. rewrite init_defaultParam.
    unfold mbind at 1, M_bind at 1. rewrite init_eq, method_get_eq.
    cbv zeta. change (defaultParam VUndefined (VObj [])) with (VObj []).
    rewrite !overlay_script by done. reflexivity.
  - unfold call_get. rewrite method_get_eq. reflexivity.
Qed.

Lemma call_set_eq s key value config w :
  script_loaded w ->
  call_set s key value config w
  = let w0 := entered w s config in
    let project := effective w s config "project" in
    if toBoolean project
    then
      let request1 := createSecret_request (fetched w) project key in
      let code1 := getResponseCode (UrlFetchApp_fetch (fetched w) request1) in
      if includes [200; 409] code1
      then
        let request2 :=
          createSecretVersion_request (fetched w ++ [request1])%list project key value in
        let code2 := getResponseCode (UrlFetchApp_fetch (fetched w ++ [request1])%list request2) in
        if (code2 =? 200)%Z
        then (Return VUndefined, log_fetch request2 (log_fetch request1 w0))
        else (Throw (UnexpectedResponseError_createSecretVersion code2),
              log_fetch request2 (log_fetch request1 w0))
      else (Throw (UnexpectedResponseError_createSecret code1), log_fetch request1 w0)
    else (Throw ConfigurationError, w0).
Proof.
  intros L. destruct s as [| h].
  - unfold call_set, set. cbv zeta. rewrite init_defaultParam.
    unfold mbind at 1, M_bind at 1. rewrite init_eq, method_set_eq.
    cbv zeta. change (defaultParam VUndefined (VObj [])) with (VObj []).
    rewrite !overlay_script by done. reflexivity.
  - unfold call_set. rewrite method_set_eq. reflexivity.
Qed.

Lemma call_getSecret_eq s project key version w :
  call_getSecret s project key version w
  = respond (UrlFetchApp_fetch (fetched w) (access_request (fetched w) project key version))
            (log_fetch (access_request (fetched w) project key version)
                       (entered w s VUndefined)).
Proof.
  destruct s as [| h].
  - unfold call_getSecret, getSecret. cbv zeta.
    unfold mbind at 1, M_bind at 1. rewrite init_eq, getSecret_eq.
    unfold access_request. rewrite defaultParam_idem. reflexivity.
  - unfold call_getSecret. apply getSecret_eq.
Qed.

Lemma call_createSecret_eq s project key w :
  call_createSecret s project key w
  = (Return (UrlFetchApp_fetch (fetched w) (createSecret_request (fetched w) project key)),
     log_fetch (createSecret_request (fetched w) project key) (entered w s VUndefined)).
Proof. destruct s; reflexivity. Qed.

Lemma call_createSecretVersion_eq s project key value w :
  call_createSecretVersion s project key value w
  = (Return (UrlFetchApp_fetch (fetched w)
               (createSecretVersion_request (fetched w) project key value)),
     log_fetch (createSecretVersion_request (fetched w) project key value)
               (entered w s VUndefined)).
Proof. destruct s; reflexivity. Qed.

End Resolution.

(** ** Concrete scenes for the examples *)

Lemma loaded_script_loaded : script_loaded loaded.
Proof. eexists. reflexivity. Qed.

(** ** Configuration errors *)

Section Configuration.
Context `{Platform}.

(** C1.  Whenever the effective [project] is missing, [null] or empty, [get]
    and [set], as functions of the script and as methods of a handle, throw
    the configuration error ("Google Cloud Project is required"), and the
    log of [fetch] calls is what it was: no request has been made. *)
Theorem missing_project_fails_before_fetch s key value config w :
  script_loaded w ->
  missing (effective w s config "project") ->
  (outcome (call_get s key config w) = Throw ConfigurationError
   ∧ fetched (world_after (call_get s key config w)) = fetched w)
  ∧ (outcome (call_set s key value config w) = Throw ConfigurationError
     ∧ fetched (world_after (call_set s key value config w)) = fetched w).
Proof.
  intros L Miss. apply toBoolean_missing in Miss.
  rewrite call_get_eq, call_set_eq by done. cbv zeta. rewrite Miss.
  unfold outcome, world_after. simpl. rewrite entered_fetched. done.
Qed.

End Configuration.

(** [get("k")] and [set("k", "v")] right after the script is loaded: the
    default [project] is [null]. *)
Lemma missing_project_fails_before_fetch_witness :
  script_loaded loaded
  ∧ missing (effective loaded Script VUndefined "project")
  ∧ (outcome (call_get (H := mocks [] ok) Script (VStr "k") VUndefined loaded)
       = Throw ConfigurationError
     ∧ fetched (world_after (call_get (H := mocks [] ok) Script (VStr "k") VUndefined loaded))
       = [])
  ∧ (outcome (call_set (H := mocks [] ok) Script (VStr "k") (VStr "v") VUndefined loaded)
       = Throw ConfigurationError
     ∧ fetched (world_after
                  (call_set (H := mocks [] ok) Script (VStr "k") (VStr "v") VUndefined loaded))
       = []).
Proof.
  assert (M : missing (effective loaded Script VUndefined "project"))
    by (right; left; vm_compute; reflexivity).
  split; [exact loaded_script_loaded |]. split; [exact M |].
  exact (missing_project_fails_before_fetch (H := mocks [] ok)
           Script (VStr "k") (VStr "v") VUndefined loaded loaded_script_loaded M).
Defined.

(** ** [set]: create the secret, then add a version *)

Lemma includes_200_409 code :
  includes [200; 409] code = true <-> code = 200 ∨ code = 409.
Proof. unfold includes. simpl. lia. Qed.

Section SetProtocol.
Context `{Platform}.

(** C7.  When the response to the create-secret request has a status other
    than 200 and 409, [set] throws the error of the creation step, whose
    message ends in that status, and the create-secret request is the only
    request made: the add-version request is not issued. *)
Theorem set_stops_when_creation_fails s key value config w :
  script_loaded w ->
  toBoolean (effective w s config "project") = true ->
  let request1 := createSecret_request (fetched w) (effective w s config "project") key in
  let code1 := getResponseCode (UrlFetchApp_fetch (fetched w) request1) in
  code1 ≠ 200 -> code1 ≠ 409 ->
  outcome (call_set s key value config w)
    = Throw (UnexpectedResponseError_createSecret code1)
  ∧ carries_status (UnexpectedResponseError_createSecret code1) code1
  ∧ fetched (world_after (call_set s key value config w)) = (fetched w ++ [request1])%list.
Proof.
  intros L P request1 code1 N200 N409.
  rewrite call_set_eq by done. cbv zeta. rewrite P.
  fold request1. fold code1.
  destruct (includes [200; 409] code1) eqn:I.
  { apply includes_200_409 in I. tauto. }
  unfold outcome, world_after. simpl. rewrite entered_fetched.
  split; [done |]. split; [| done]. eexists. reflexivity.
Qed.

(** C8.  When the response to the create-secret request has status 200 or
    409, [set] makes exactly two requests, the create-secret request and
    then the add-version request, whose payload is the JSON text of
    [{ payload: { data: Utilities.base64Encode(value) } }]; and when the
    response to the add-version request has status 200, [set] returns
    without throwing. *)
Theorem set_creates_then_adds_version s key value config w :
  script_loaded w ->
  toBoolean (effective w s config "project") = true ->
  let project := effective w s config "project" in
  let request1 := createSecret_request (fetched w) project key in
  let code1 := getResponseCode (UrlFetchApp_fetch (fetched w) request1) in
  let request2 := createSecretVersion_request (fetched w ++ [request1])%list project key value in
  let code2 := getResponseCode (UrlFetchApp_fetch (fetched w ++ [request1])%list request2) in
  code1 = 200 ∨ code1 = 409 ->
  fetched (world_after (call_set s key value config w)) = (fetched w ++ [request1; request2])%list
  ∧ url request1 = secrets_url project key
  ∧ url request2 = addVersion_url project key
  ∧ (∃ token,
       params request2
       = VObj [("method", VStr "POST");
               ("muteHttpExceptions", VBool true);
               ("payload",
                JSON_stringify
                  (VObj [("payload", VObj [("data", Utilities_base64Encode value)])]));
               ("contentType", VStr "application/json");
               ("headers", headers token)])
  ∧ (code2 = 200 -> outcome (call_set s key value config w) = Return VUndefined).
Proof.
  intros L P project request1 code1 request2 code2 C1.
  rewrite call_set_eq by done. cbv zeta. rewrite P.
  fold project. fold request1. fold code1.
  apply includes_200_409 in C1. rewrite C1.
  fold request2. fold code2.
  assert (F : ∀ r : Result JsValue,
             fetched (world_after (r, log_fetch request2 (log_fetch request1 (entered w s config))))
             = (fetched w ++ [request1; request2])%list).
  { intros r. unfold world_after. simpl. rewrite entered_fetched, <- app_assoc. done. }
  split; [destruct (code2 =? 200)%Z; apply F |].
  split; [reflexivity |]. split; [reflexivity |]. split; [eexists; reflexivity |].
  intros ->. reflexivity.
Qed.

End SetProtocol.

(** [set("new-secret", "new-secret-value", { project: "my-project" })]
    against a service that answers the creation with status 500. *)
Lemma set_stops_when_creation_fails_witness :
  script_loaded loaded
  ∧ toBoolean (effective loaded Script my_project "project") = true
  ∧ getResponseCode
      (UrlFetchApp_fetch (Platform := service_down) []
         (createSecret_request (H := service_down) [] (VStr "my-project") (VStr "new-secret")))
    = 500
  ∧ outcome (call_set (H := service_down) Script (VStr "new-secret")
               (VStr "new-secret-value") my_project loaded)
    = Throw (UnexpectedResponseError_createSecret 500)
  ∧ List.map url
      (fetched (world_after (call_set (H := service_down) Script (VStr "new-secret")
                               (VStr "new-secret-value") my_project loaded)))
    = ["https://secretmanager.googleapis.com/v1/projects/my-project/secrets?secretId=new-secret"].
Proof.
  assert (P : toBoolean (effective loaded Script my_project "project") = true)
    by (vm_compute; reflexivity).
  split; [exact loaded_script_loaded |]. split; [exact P |]. split; [reflexivity |].
  destruct (set_stops_when_creation_fails (H := service_down) Script (VStr "new-secret")
              (VStr "new-secret-value") my_project loaded loaded_script_loaded P)
    as (O & _ & F).
  - vm_compute. discriminate.
  - vm_compute. discriminate.
  - split; [exact O |]. rewrite F. vm_compute. reflexivity.
Defined.

(** The same call when the secret exists already: status 409, then 200. *)
Lemma set_creates_then_adds_version_witness :
  script_loaded loaded
  ∧ toBoolean (effective loaded Script my_project "project") = true
  ∧ List.map url
      (fetched (world_after (call_set (H := secret_exists) Script (VStr "new-secret")
                               (VStr "new-secret-value") my_project loaded)))
    = ["https://secretmanager.googleapis.com/v1/projects/my-project/secrets?secretId=new-secret";
       "https://secretmanager.googleapis.com/v1/projects/my-project/secrets/new-secret:addVersion"]
  ∧ outcome (call_set (H := secret_exists) Script (VStr "new-secret")
               (VStr "new-secret-value") my_project loaded)
    = Return VUndefined.
Proof.
  assert (P : toBoolean (effective loaded Script my_project "project") = true)
    by (vm_compute; reflexivity).
  split; [exact loaded_script_loaded |]. split; [exact P |].
  destruct (set_creates_then_adds_version (H := secret_exists) Script (VStr "new-secret")
              (VStr "new-secret-value") my_project loaded loaded_script_loaded P)
    as (F & _ & _ & _ & O).
  - right. vm_compute. reflexivity.
  - split; [rewrite F; vm_compute; reflexivity |]. apply O. vm_compute. reflexivity.
Defined.

(** ** Reading a secret *)

Section Reading.
Context `{Platform}.

(** A read either fails on its configuration without a request, or makes
    one request and answers with what [respond] makes of the response. *)
Lemma call_read_cases s op w :
  script_loaded w ->
  (outcome (call_read s op w) = Throw ConfigurationError
   ∧ fetched (world_after (call_read s op w)) = fetched w)
  ∨ (∃ request w0,
       fetched w0 = fetched w
       ∧ call_read s op w
         = respond (UrlFetchApp_fetch (fetched w) request) (log_fetch request w0)).
Proof.
  intros L. destruct op as [key config | project key version]; simpl.
  - rewrite call_get_eq by done.
    destruct (toBoolean (effective w s config "project")).
    + right. rewrite getSecret_eq, entered_fetched.
      eexists _, (entered w s config). split; [apply entered_fetched | reflexivity].
    + left. unfold outcome, world_after. simpl. by rewrite entered_fetched.
  - right. rewrite call_getSecret_eq.
    eexists _, (entered w s VUndefined). split; [apply entered_fetched | reflexivity].
Qed.

(** The response that a read decides on: the read made [request], and only
    that one. *)
Lemma call_read_issued s op w request :
  script_loaded w ->
  fetched (world_after (call_read s op w)) = (fetched w ++ [request])%list ->
  ∃ w', call_read s op w = respond (UrlFetchApp_fetch (fetched w) request) w'.
Proof.
  intros L F. destruct (call_read_cases s op w L) as [[_ F'] | (request' & w0 & F0 & E)].
  - rewrite F' in F. apply (f_equal List.length) in F.
    rewrite length_app in F. simpl in F. lia.
  - rewrite E in F. unfold world_after in F. rewrite respond_world in F.
    simpl in F. rewrite F0 in F. apply app_inv_head in F. injection F as ->.
    eexists. exact E.
Qed.

Lemma respond_403 response w :
  getResponseCode response = 403 -> respond response w = (Throw PermissionError, w).
Proof. intros E. unfold respond. rewrite E. reflexivity. Qed.

Lemma respond_404 response w :
  getResponseCode response = 404 -> respond response w = (Return VUndefined, w).
Proof. intros E. unfold respond. rewrite E. reflexivity. Qed.

(** Any other status is not looked at: the body decides. *)
Lemma respond_other response w :
  getResponseCode response ≠ 403 -> getResponseCode response ≠ 404 ->
  respond response w = respond (mkResponse 200 (getContentText response)) w.
Proof.
  intros N3 N4. unfold respond. simpl.
  destruct (Z.eqb_spec (getResponseCode response) 403); [done |].
  destruct (Z.eqb_spec (getResponseCode response) 404); [done |].
  reflexivity.
Qed.

(** [respond] throws no [Error] but the one of status 403. *)
Lemma respond_throws response w message :
  outcome (respond response w) = Throw (JsError message) ->
  getResponseCode response = 403 ∧ message = "Permission denied".
Proof.
  unfold respond, outcome.
  destruct (Z.eqb_spec (getResponseCode response) 403) as [E | _].
  { simpl. intros [= <-]. done. }
  destruct (getResponseCode response =? 404)%Z; [discriminate |].
  unfold parse. destruct (JSON_parse _) as [parsed |]; [| discriminate].
  unfold mbind, M_bind, mret, M_ret.
  pose proof (getProp_world parsed "payload" w) as W1.
  destruct (getProp parsed "payload" w) as [[payload | e] w1] eqn:E1; simpl in W1; subst w1.
  - pose proof (getProp_world payload "data" w) as W2.
    destruct (getProp payload "data" w) as [[data | e] w2] eqn:E2; simpl in W2; subst w2.
    + discriminate.
    + simpl. intros [= ->]. destruct payload; simpl in E2; try discriminate;
        destruct (String.eqb _ _); discriminate.
  - simpl. intros [= ->]. destruct parsed; simpl in E1; try discriminate;
      destruct (String.eqb _ _); discriminate.
Qed.

(** C5.  When the response to the request of a read ([get] or [getSecret],
    as a function or as a method) has status 403, the read throws the
    permission error ("Permission denied"); when it has status 404, the read
    returns [undefined] and throws nothing. *)
Theorem read_403_denied_404_absent s op w request :
  script_loaded w ->
  fetched (world_after (call_read s op w)) = (fetched w ++ [request])%list ->
  let code := getResponseCode (UrlFetchApp_fetch (fetched w) request) in
  (code = 403 -> outcome (call_read s op w) = Throw PermissionError)
  ∧ (code = 404 -> outcome (call_read s op w) = Return VUndefined).
Proof.
  intros L F code. destruct (call_read_issued s op w request L F) as [w' ->].
  split; intros E.
  - by rewrite respond_403.
  - by rewrite respond_404.
Qed.

(** C6.  When the response to the request of a read has status 200 and its
    body parses to [{ payload: { data: D } }], the read returns
    [Utilities.newBlob(Utilities.base64Decode(D)).getDataAsString()]. *)
Theorem read_200_decodes_payload s op w request D :
  script_loaded w ->
  fetched (world_after (call_read s op w)) = (fetched w ++ [request])%list ->
  let response := UrlFetchApp_fetch (fetched w) request in
  getResponseCode response = 200 ->
  JSON_parse (getContentText response) = Some (VObj [("payload", VObj [("data", D)])]) ->
  outcome (call_read s op w) = Return (Blob_getDataAsString (Utilities_base64Decode D)).
Proof.
  intros L F response C200 Body.
  destruct (call_read_issued s op w request L F) as [w' ->].
  fold response. unfold respond, parse. rewrite C200, Body. reflexivity.
Qed.

End Reading.

Lemma managed_script_loaded : script_loaded managed.
Proof. eexists. vm_compute. reflexivity. Qed.

(** [manager.get("secret-key")] against a service that answers 403, and
    against one that answers 404. *)
Lemma read_403_denied_404_absent_witness :
  script_loaded managed
  ∧ fetched (world_after (call_read (H := denied) manager
                            (Get (VStr "secret-key") VUndefined) managed))
    = [latest_of_secret_key]
  ∧ outcome (call_read (H := denied) manager (Get (VStr "secret-key") VUndefined) managed)
    = Throw PermissionError
  ∧ fetched (world_after (call_read (H := absent) manager
                            (Get (VStr "secret-key") VUndefined) managed))
    = [latest_of_secret_key]
  ∧ outcome (call_read (H := absent) manager (Get (VStr "secret-key") VUndefined) managed)
    = Return VUndefined.
Proof.
  assert (F3 : fetched (world_after (call_read (H := denied) manager
                                       (Get (VStr "secret-key") VUndefined) managed))
               = [latest_of_secret_key]) by (vm_compute; reflexivity).
  assert (F4 : fetched (world_after (call_read (H := absent) manager
                                       (Get (VStr "secret-key") VUndefined) managed))
               = [latest_of_secret_key]) by (vm_compute; reflexivity).
  split; [exact managed_script_loaded |]. split; [exact F3 |].
  split.
  - apply (read_403_denied_404_absent (H := denied) manager
             (Get (VStr "secret-key") VUndefined) managed latest_of_secret_key
             managed_script_loaded F3).
    vm_compute. reflexivity.
  - split; [exact F4 |].
    apply (read_403_denied_404_absent (H := absent) manager
             (Get (VStr "secret-key") VUndefined) managed latest_of_secret_key
             managed_script_loaded F4).
    vm_compute. reflexivity.
Defined.

(** [manager.get("secret-key")] when the secret is there: test "Get a
    secret". *)
Lemma read_200_decodes_payload_witness :
  script_loaded managed
  ∧ fetched (world_after (call_read (H := found) manager
                            (Get (VStr "secret-key") VUndefined) managed))
    = [latest_of_secret_key]
  ∧ JSON.parse mock_secret_body = Some (VObj [("payload", VObj [("data", VStr "mock-secret")])])
  ∧ outcome (call_read (H := found) manager (Get (VStr "secret-key") VUndefined) managed)
    = Return (VStr "mock-secret").
Proof.
  assert (F : fetched (world_after (call_read (H := found) manager
                                      (Get (VStr "secret-key") VUndefined) managed))
              = [latest_of_secret_key]) by (vm_compute; reflexivity).
  assert (B : JSON.parse mock_secret_body
              = Some (VObj [("payload", VObj [("data", VStr "mock-secret")])]))
    by (vm_compute; reflexivity).
  split; [exact managed_script_loaded |]. split; [exact F |]. split; [exact B |].
  apply (read_200_decodes_payload (H := found) manager
           (Get (VStr "secret-key") VUndefined) managed latest_of_secret_key
           (VStr "mock-secret") managed_script_loaded F).
  - vm_compute. reflexivity.
  - exact B.
Defined.

Section UnexpectedStatus.
Context `{Platform}.

(** A read whose response has a status other than 403 and 404 throws no
    [Error] at all, so none that carries the status: it returns what the
    body decodes to, or fails inside [JSON.parse] or on a property of
    [undefined]. *)
Lemma read_ignores_other_status s op w request message :
  script_loaded w ->
  fetched (world_after (call_read s op w)) = (fetched w ++ [request])%list ->
  getResponseCode (UrlFetchApp_fetch (fetched w) request) ≠ 403 ->
  outcome (call_read s op w) ≠ Throw (JsError message).
Proof.
  intros L F N3 E. destruct (call_read_issued s op w request L F) as [w' E'].
  rewrite E' in E. apply respond_throws in E. tauto.
Qed.

End UnexpectedStatus.

(** C4, on the code.  With status 500 the read does not throw an error
    that carries the status: on the error body of the service it throws a
    [TypeError] (the parsed body has no [payload]), and on a body with a
    payload it returns the decoded data as if the status were 200. *)
Theorem read_500_not_reported :
  fetched (world_after (call_read (H := failing) manager
                          (Get (VStr "secret-key") VUndefined) managed))
    = [latest_of_secret_key]
  ∧ getResponseCode (UrlFetchApp_fetch (Platform := failing) [] latest_of_secret_key) = 500
  ∧ outcome (call_read (H := failing) manager (Get (VStr "secret-key") VUndefined) managed)
    = Throw JsTypeError
  ∧ ¬ carries_status JsTypeError 500
  ∧ getResponseCode (UrlFetchApp_fetch (Platform := failing_with_payload) []
                       latest_of_secret_key) = 500
  ∧ outcome (call_read (H := failing_with_payload) manager
               (Get (VStr "secret-key") VUndefined) managed)
    = Return (VStr "mock-secret").
Proof.
  split; [vm_compute; reflexivity |]. split; [reflexivity |].
  split; [vm_compute; reflexivity |]. split; [simpl; tauto |].
  split; [reflexivity |]. vm_compute. reflexivity.
Qed.

(** ** Setters *)

Lemma write_other c k x w l : l ≠ c -> heap (write c k x w) !! l = heap w !! l.
Proof. intros N. unfold write, set_heap. simpl. by rewrite lookup_insert_ne. Qed.

Lemma write_same c k x w :
  heap (write c k x w) !! c = Some (<[k := x]> (default ∅ (heap w !! c))).
Proof. unfold write, set_heap. simpl. apply lookup_insert_eq. Qed.

Lemma write_fetched c k x w : fetched (write c k x w) = fetched w.
Proof. reflexivity. Qed.

Lemma write_stored c k x w h : h ≠ c -> stored (heap (write c k x w)) h = stored (heap w) h.
Proof. intros N. unfold stored, ownProps. by rewrite write_other. Qed.

Lemma setProject_eq h c project w :
  stored (heap w) h = VRef c ->
  GCSecretManager.setProject (VRef h) project w = (Return (VRef h), write c "project" project w).
Proof.
  intros S. unfold GCSecretManager.setProject, mbind, M_bind, getProp.
  fold (stored (heap w) h). rewrite S. reflexivity.
Qed.

Lemma setVersion_eq h c version w :
  stored (heap w) h = VRef c ->
  GCSecretManager.setVersion (VRef h) version w = (Return (VRef h), write c "version" version w).
Proof.
  intros S. unfold GCSecretManager.setVersion, mbind, M_bind, getProp.
  fold (stored (heap w) h). rewrite S. reflexivity.
Qed.

Lemma call_setter_eq h c call w :
  stored (heap w) h = VRef c ->
  ∃ k x, call_setter (VRef h) call w = (Return (VRef h), write c k x w).
Proof.
  intros S. destruct call as [project | version]; simpl.
  - exists "project", project. by apply setProject_eq.
  - exists "version", version. by apply setVersion_eq.
Qed.

(** A chain of setters on a handle returns the handle, makes no request and
    writes no object but the configuration that the handle stores. *)
Lemma chain_frame h c calls w :
  h ≠ c ->
  stored (heap w) h = VRef c ->
  outcome (chain (VRef h) calls w) = Return (VRef h)
  ∧ fetched (world_after (chain (VRef h) calls w)) = fetched w
  ∧ ∀ l, l ≠ c -> heap (world_after (chain (VRef h) calls w)) !! l = heap w !! l.
Proof.
  intros N. revert w. induction calls as [| call rest IH]; intros w S.
  - done.
  - destruct (call_setter_eq h c call w S) as (k & x & E).
    cbn [chain]. rewrite (bind_Return _ _ _ _ _ E).
    destruct (IH (write c k x w)) as (O & F & Fr).
    { by rewrite write_stored. }
    split; [exact O |]. split; [by rewrite F |].
    intros l Nl. rewrite Fr by done. by apply write_other.
Qed.

(** ** [init] makes a copy of its own *)

(** C10.  [init(config)] creates two objects that the store did not hold:
    the handle, and the object it stores as its configuration, a shallow
    copy [{ ...DEFAULT_CONFIG, ...config }].  Whatever chain of [setProject]
    and [setVersion] calls is later made on the handle, in any later world
    in which the handle still stores that object, the chain returns the
    handle and writes that object only.  The objects that existed when
    [init] was called ([DEFAULT_CONFIG], the caller's [config], the
    configurations of the handles made before) are other objects, and so are
    the two objects of any handle that [init] makes while this one exists:
    all of them are left as they were. *)
Theorem init_copy_is_isolated config calls w :
  let h := init_handle_loc w config in
  let c := init_config_loc w in
  init config w = (Return (VRef h), init_world w config)
  ∧ ((h ∉ dom (heap w)) ∧ (c ∉ dom (heap w)) ∧ h ≠ c)
  ∧ heap (init_world w config) !! h = Some {[ "config_" := VRef c ]}
  ∧ heap (init_world w config) !! c
    = Some (spread (defaults w) (ownProps (heap w) (defaultParam config (VObj []))))
  ∧ (∀ l, l ∈ dom (heap w) -> heap (init_world w config) !! l = heap w !! l)
  ∧ (∀ w', stored (heap w') h = VRef c ->
       outcome (chain (VRef h) calls w') = Return (VRef h)
       ∧ ∀ l, l ≠ c -> heap (world_after (chain (VRef h) calls w')) !! l = heap w' !! l)
  ∧ (∀ w' config', c ∈ dom (heap w') ->
       init_config_loc w' ≠ c ∧ init_handle_loc w' config' ≠ c).
Proof.
  intros h c.
  destruct (init_handle_loc_fresh w config) as [Fh Nhc].
  pose proof (init_config_loc_fresh w) as Fc.
  split; [apply init_eq |]. split; [done |].
  split; [apply init_world_handle |]. split; [apply init_world_config |].
  split; [intros l; apply init_world_old |].
  split.
  - intros w' S. destruct (chain_frame h c calls w' Nhc S) as (O & _ & Fr). done.
  - intros w' config' In.
    pose proof (init_config_loc_fresh w') as Fc'.
    destruct (init_handle_loc_fresh w' config') as [Fh' _].
    split; intros E; rewrite E in *; contradiction.
Qed.

(** Two handles are made from the same object of the caller; setters on
    the first leave the second, the caller's object and [DEFAULT_CONFIG] as
    they were. *)
Lemma init_copy_is_isolated_witness :
  stored (heap second_world) first_handle = VRef (init_config_loc with_callers_object)
  ∧ outcome (chain (VRef first_handle)
                   [SetProject (VStr "other-project"); SetVersion (VNum 3)] second_world)
    = Return (VRef first_handle)
  ∧ ownProps (heap rewritten) (stored (heap rewritten) first_handle)
    = {[ "project" := VStr "other-project"; "version" := VNum 3 ]}
  ∧ ownProps (heap rewritten) (stored (heap rewritten) second_handle)
    = {[ "project" := VStr "my-project"; "version" := VStr "latest" ]}
  ∧ heap rewritten !! DEFAULT_CONFIG = Some DEFAULT_CONFIG_literal
  ∧ heap rewritten !! callers_object = Some {[ "project" := VStr "my-project" ]}.
Proof.
  destruct (init_copy_is_isolated (VRef callers_object)
              [SetProject (VStr "other-project"); SetVersion (VNum 3)] with_callers_object)
    as (_ & _ & _ & _ & _ & Chain & _).
  assert (S : stored (heap second_world) first_handle
              = VRef (init_config_loc with_callers_object)) by (vm_compute; reflexivity).
  destruct (Chain second_world S) as [O Frame].
  split; [exact S |]. split; [exact O |].
  split; [vm_compute; reflexivity |]. split; [vm_compute; reflexivity |].
  split.
  - unfold rewritten. rewrite Frame by (vm_compute; discriminate). vm_compute. reflexivity.
  - unfold rewritten. rewrite Frame by (vm_compute; discriminate). vm_compute. reflexivity.
Defined.

(** ** Precedence of the three layers *)

Lemma lookup_merged dflt inst call k :
  spread (spread dflt inst) call !! k
  = match call !! k with
    | Some v => Some v
    | None => match inst !! k with
              | Some v => Some v
              | None => dflt !! k
              end
    end.
Proof. rewrite !lookup_spread. reflexivity. Qed.

Lemma access_request_url `{Platform} log project key version :
  version ≠ VUndefined ->
  url (access_request log project key version) = access_url project key version.
Proof. intros N. destruct version; done. Qed.

Section Precedence.
Context `{Platform}.

Lemma call_get_fetched s key config w :
  script_loaded w ->
  toBoolean (effective w s config "project") = true ->
  fetched (world_after (call_get s key config w))
  = (fetched w ++ [access_request (fetched w) (effective w s config "project") key
                                  (effective w s config "version")])%list.
Proof.
  intros L P. rewrite call_get_eq by done. rewrite P, getSecret_eq.
  unfold world_after. rewrite respond_world. simpl. by rewrite entered_fetched.
Qed.

Lemma chained_eq p v key w :
  script_loaded w ->
  toBoolean p = true ->
  chained p v key w
  = GCSecretManager.getSecret (VRef (init_handle_loc w VUndefined)) p key v
      (write (init_config_loc w) "version" v
         (write (init_config_loc w) "project" p (init_world w VUndefined))).
Proof.
  intros L P.
  destruct (init_handle_loc_fresh w VUndefined) as [_ N].
  set (h := init_handle_loc w VUndefined) in *. set (c := init_config_loc w) in *.
  set (w1 := init_world w VUndefined).
  assert (S1 : stored (heap w1) h = VRef c) by apply init_world_stored.
  assert (S2 : stored (heap (write c "project" p w1)) h = VRef c)
    by (by rewrite write_stored).
  set (w3 := write c "version" v (write c "project" p w1)).
  assert (S3 : stored (heap w3) h = VRef c) by (unfold w3; by rewrite write_stored).
  assert (E1 : setProject p w = (Return (VRef h), write c "project" p w1)).
  { unfold setProject. unfold mbind, M_bind. rewrite init_eq. by apply setProject_eq. }
  unfold chained. rewrite (bind_Return _ _ _ _ _ E1).
  rewrite (bind_Return _ _ _ _ _ (setVersion_eq h c v _ S2)).
  fold w3. rewrite method_get_eq. cbv zeta. rewrite S3.
  assert (C : ownProps (heap w3) (VRef c)
              = <["version" := v]> (<["project" := p]> (init_copy w VUndefined))).
  { unfold ownProps, w3. rewrite write_same, write_same.
    unfold w1, c. rewrite init_world_config. reflexivity. }
  rewrite C. unfold overlay. simpl.
  rewrite !lookup_empty, lookup_insert_eq.
  rewrite lookup_insert_ne by done. rewrite lookup_insert_eq.
  rewrite P. reflexivity.
Qed.

(** C2.  The configuration that [getConfig_] resolves has, for every name,
    the call-level value if the call-level layer has the name, else the
    instance-level value if that layer has it, else the default.  [get]
    makes its request with the [project] and the [version] so resolved: a
    call-level [version] before an instance-level one before the default,
    which is "latest" in [DEFAULT_CONFIG]; and
    [setProject(p).setVersion(v).get(k)] makes one request, to the path
    built from [p], [k] and [v]. *)
Theorem configuration_precedence s key config p v w :
  script_loaded w ->
  toBoolean (effective w s config "project") = true ->
  toBoolean p = true ->
  v ≠ VUndefined ->
  (∃ mergedConfig,
     GCSecretManager.getConfig_ (VRef (receiver w s config)) (passed s config)
                                (entered w s config)
     = (Return mergedConfig, entered w s config)
     ∧ ∀ k, mergedConfig !! k
            = match call_level w s config !! k with
              | Some x => Some x
              | None => match instance_level w s config !! k with
                        | Some x => Some x
                        | None => defaults w !! k
                        end
              end)
  ∧ fetched (world_after (call_get s key config w))
    = (fetched w ++ [access_request (fetched w) (effective w s config "project") key
                                    (effective w s config "version")])%list
  ∧ (defaults w = DEFAULT_CONFIG_literal ->
     call_level w s config !! "version" = None ->
     instance_level w s config !! "version" = None ->
     effective w s config "version" = VStr "latest")
  ∧ List.map url (fetched (world_after (chained p v key w)))
    = (List.map url (fetched w) ++ [access_url p key v])%list.
Proof.
  intros L P Pp Nv. split; [| split; [| split]].
  - rewrite getConfig__eq. cbv zeta. rewrite field_merged.
    rewrite (overlay_entered w s config "project" L), P.
    eexists. split; [reflexivity |]. intros k. rewrite lookup_merged.
    destruct s as [| h]; [| reflexivity].
    unfold entered, receiver, passed, call_level, instance_level.
    rewrite init_world_stored, init_world_defaults by done.
    unfold ownProps at 1 2. rewrite init_world_config. simpl.
    rewrite !lookup_empty, lookup_init_copy.
    destruct (ownProps (heap w) (defaultParam config (VObj [])) !! k); [reflexivity |].
    destruct (defaults w !! k); reflexivity.
  - by apply call_get_fetched.
  - intros D C I. unfold effective, overlay. rewrite C, I, D. reflexivity.
  - rewrite chained_eq, getSecret_eq by done.
    unfold world_after. rewrite respond_world.
    change (fetched (log_fetch ?r ?w0)) with (fetched w0 ++ [r])%list.
    rewrite !write_fetched, init_world_fetched, map_app.
    cbn [List.map]. by rewrite access_request_url.
Qed.

(** C3, as the code has it.  In the configuration that [getConfig_]
    resolves, a name that a layer does not have keeps the value of the
    layers below it, and a name that a layer has takes the value of the
    highest layer that has it, whatever that value is: a call-level or an
    instance-level [null] or [undefined] replaces a value set below. *)
Theorem override_replaces_when_present h config k mergedConfig w :
  outcome (GCSecretManager.getConfig_ (VRef h) config w) = Return mergedConfig ->
  let call := ownProps (heap w) config in
  let inst := ownProps (heap w) (stored (heap w) h) in
  (∀ x, call !! k = Some x -> mergedConfig !! k = Some x)
  ∧ (∀ x, call !! k = None -> inst !! k = Some x -> mergedConfig !! k = Some x)
  ∧ (call !! k = None -> inst !! k = None -> mergedConfig !! k = defaults w !! k).
Proof.
  rewrite getConfig__eq. cbv zeta. unfold outcome.
  destruct (toBoolean _); [| discriminate]. intros [= <-].
  split; [| split].
  - intros x E. by rewrite lookup_merged, E.
  - intros x E1 E2. by rewrite lookup_merged, E1, E2.
  - intros E1 E2. by rewrite lookup_merged, E1, E2.
Qed.

End Precedence.

(** [manager.get("does-not-exist", { version: "1" })], and the chain
    [setProject("my-project").setVersion(3).get("does-not-exist")] of the
    tests. *)
Lemma configuration_precedence_witness :
  script_loaded managed
  ∧ toBoolean (effective managed manager (VObj [("version", VStr "1")]) "project") = true
  ∧ List.map url
      (fetched (world_after (call_get (H := absent) manager (VStr "does-not-exist")
                               (VObj [("version", VStr "1")]) managed)))
    = ["https://secretmanager.googleapis.com/v1/projects/my-project/secrets/does-not-exist/versions/1:access"]
  ∧ List.map url
      (fetched (world_after (chained (H := absent) (VStr "my-project") (VNum 3)
                               (VStr "does-not-exist") managed)))
    = ["https://secretmanager.googleapis.com/v1/projects/my-project/secrets/does-not-exist/versions/3:access"].
Proof.
  assert (P : toBoolean (effective managed manager (VObj [("version", VStr "1")]) "project")
              = true) by (vm_compute; reflexivity).
  split; [exact managed_script_loaded |]. split; [exact P |].
  destruct (configuration_precedence (H := absent) manager (VStr "does-not-exist")
              (VObj [("version", VStr "1")]) (VStr "my-project") (VNum 3) managed
              managed_script_loaded P)
    as (_ & F & _ & C).
  - reflexivity.
  - discriminate.
  - split; [rewrite F; vm_compute; reflexivity | rewrite C; vm_compute; reflexivity].
Defined.

(** C3, as the claim has it, fails.  The handle has the instance-level
    project "my-project"; a call-level [{ project: null }], and likewise
    [{ project: undefined }], clears it, and the resolution throws. *)
Lemma null_override_clears_project :
  ownProps (heap managed) (stored (heap managed) (init_handle_loc loaded my_project))
    !! "project" = Some (VStr "my-project")
  ∧ outcome (GCSecretManager.getConfig_ (VRef (init_handle_loc loaded my_project))
               (VObj [("project", VNull)]) managed)
    = Throw ConfigurationError
  ∧ outcome (GCSecretManager.getConfig_ (VRef (init_handle_loc loaded my_project))
               (VObj [("project", VUndefined)]) managed)
    = Throw ConfigurationError.
Proof. split; [| split]; vm_compute; reflexivity. Qed.

(** [manager.getConfig_({ version: null })]: the version becomes [null],
    the project stays. *)
Lemma override_replaces_when_present_witness :
  outcome (GCSecretManager.getConfig_ (VRef (init_handle_loc loaded my_project))
             (VObj [("version", VNull)]) managed)
  = Return {[ "project" := VStr "my-project"; "version" := VNull ]}
  ∧ ownProps (heap managed) (stored (heap managed) (init_handle_loc loaded my_project))
    = {[ "project" := VStr "my-project"; "version" := VStr "latest" ]}
  ∧ ({[ "project" := VStr "my-project"; "version" := VNull ]} : Props) !! "version"
    = Some VNull
  ∧ ({[ "project" := VStr "my-project"; "version" := VNull ]} : Props) !! "project"
    = Some (VStr "my-project").
Proof.
  assert (O : outcome (GCSecretManager.getConfig_ (VRef (init_handle_loc loaded my_project))
                         (VObj [("version", VNull)]) managed)
              = Return {[ "project" := VStr "my-project"; "version" := VNull ]})
    by (vm_compute; reflexivity).
  split; [exact O |]. split; [vm_compute; reflexivity |]. split.
  - destruct (override_replaces_when_present _ _ "version" _ _ O) as (Call & _ & _).
    apply Call. vm_compute. reflexivity.
  - destruct (override_replaces_when_present _ _ "project" _ _ O) as (_ & Inst & _).
    apply Inst; vm_compute; reflexivity.
Defined.

(** ** The project of a request *)

Section RequestProject.
Context `{Platform}.

(** C9, as the code has it.  Every request that [get] and [set] make, as
    functions and as methods, is built from the effective [project], which
    is then neither missing, nor [null], nor empty: [getConfig_] has let it
    through.  (The primitives [getSecret], [createSecret] and
    [createSecretVersion] build their request from the [project] they are
    given, whatever it is.) *)
Theorem get_set_requests_have_project s key value config request w :
  script_loaded w ->
  request ∈ fetched (world_after (call_get s key config w))
  ∨ request ∈ fetched (world_after (call_set s key value config w)) ->
  request ∈ fetched w
  ∨ (toBoolean (effective w s config "project") = true
     ∧ ¬ missing (effective w s config "project")
     ∧ (url request = access_url (effective w s config "project") key
                        (defaultParam (effective w s config "version") (VStr "latest"))
        ∨ url request = secrets_url (effective w s config "project") key
        ∨ url request = addVersion_url (effective w s config "project") key)).
Proof.
  intros L In.
  destruct (toBoolean (effective w s config "project")) eqn:P.
  - pose proof (toBoolean_true_not_missing _ P) as NM.
    destruct In as [In | In].
    + rewrite call_get_fetched in In by done.
      apply elem_of_app in In as [In | In]; [by left |].
      apply list_elem_of_singleton in In as ->. right. auto.
    + rewrite call_set_eq in In by done. cbv zeta in In. rewrite P in In.
      unfold world_after in In.
      repeat match type of In with
             | context [if ?b then _ else _] => destruct b
             end; simpl in In; rewrite entered_fetched in In;
        repeat (apply elem_of_app in In as [In | In]);
        try (by left);
        apply list_elem_of_singleton in In as ->; right; auto.
  - left. destruct In as [In | In].
    + rewrite call_get_eq in In by done. rewrite P in In.
      unfold world_after in In. simpl in In. by rewrite entered_fetched in In.
    + rewrite call_set_eq in In by done. cbv zeta in In. rewrite P in In.
      unfold world_after in In. simpl in In. by rewrite entered_fetched in In.
Qed.

End RequestProject.

(** The second request of [manager.set("new-secret", "new-secret-value")]
    when the secret exists already. *)
Lemma get_set_requests_have_project_witness :
  script_loaded managed
  ∧ add_version_of_new_secret
    ∈ fetched (world_after (call_set (H := secret_exists) manager (VStr "new-secret")
                              (VStr "new-secret-value") VUndefined managed))
  ∧ effective managed manager VUndefined "project" = VStr "my-project"
  ∧ ¬ missing (effective managed manager VUndefined "project").
Proof.
  assert (In : add_version_of_new_secret
               ∈ fetched (world_after (call_set (H := secret_exists) manager
                                         (VStr "new-secret") (VStr "new-secret-value")
                                         VUndefined managed))).
  { vm_compute. apply list_elem_of_further, list_elem_of_here. }
  split; [exact managed_script_loaded |]. split; [exact In |].
  split; [vm_compute; reflexivity |].
  destruct (get_set_requests_have_project (H := secret_exists) manager (VStr "new-secret")
              (VStr "new-secret-value") VUndefined add_version_of_new_secret managed
              managed_script_loaded (or_intror In))
    as [Old | (_ & NM & _)].
  - vm_compute in Old. inversion Old.
  - exact NM.
Defined.

(** C9, as the claim has it, fails.  The primitives make their request with
    an empty, a [null] and an [undefined] project. *)
Lemma primitives_take_any_project :
  List.map url
    (fetched (world_after (call_getSecret (H := absent) Script (VStr "") (VStr "k")
                             VUndefined loaded)))
  = ["https://secretmanager.googleapis.com/v1/projects//secrets/k/versions/latest:access"]
  ∧ List.map url
      (fetched (world_after (call_createSecret (H := absent) Script VNull (VStr "k") loaded)))
    = ["https://secretmanager.googleapis.com/v1/projects/null/secrets?secretId=k"]
  ∧ List.map url
      (fetched (world_after (call_createSecretVersion (H := absent) manager VUndefined
                               (VStr "k") (VStr "v") managed)))
    = ["https://secretmanager.googleapis.com/v1/projects/undefined/secrets/k:addVersion"].
Proof. split; [| split]; vm_compute; reflexivity. Qed.

(** ** The test suite, replayed on the model *)

(** "Running without a project" *)
Example test_running_without_a_project :
  call_get (H := mocks [] ok) bare (VStr "does-not-exist") VUndefined bare_world
  = (Throw (JsError "Google Cloud Project is required"), bare_world).
Proof. vm_compute. reflexivity. Qed.

(** "Set project and version via chaining" and "GCSecretManager.setProject" *)
Example test_set_project_and_version_via_chaining :
  let run :=
    (this ← init VUndefined;
     this ← GCSecretManager.setProject this (VStr "my-project");
     this ← GCSecretManager.setVersion this (VNum 3);
     GCSecretManager.get (H := absent) this (VStr "does-not-exist") VUndefined) loaded in
  outcome run = Return VUndefined
  ∧ outcome (chained (H := absent) (VStr "my-project") (VNum 5) (VStr "does-not-exist") loaded)
    = Return VUndefined
  ∧ fetched (world_after run)
    = [mkRequest
         "https://secretmanager.googleapis.com/v1/projects/my-project/secrets/does-not-exist/versions/3:access"
         (VObj [("muteHttpExceptions", VBool true);
                ("headers", VObj [("Authorization", VStr "Bearer mock-oauth-token");
                                  ("Accept", VStr "application/json")])])].
Proof. vm_compute. done. Qed.

(** "Get a secret of specific version" *)
Example test_get_a_secret_of_specific_version :
  outcome (call_get (H := found) manager (VStr "does-not-exist")
             (VObj [("version", VStr "1")]) managed)
  = Return (VStr "mock-secret")
  ∧ List.map url (fetched (world_after
      (call_get (H := found) Script (VStr "does-not-exist")
         (VObj [("version", VStr "1"); ("project", VStr "my-project")]) loaded)))
    = ["https://secretmanager.googleapis.com/v1/projects/my-project/secrets/does-not-exist/versions/1:access"].
Proof. vm_compute. done. Qed.

(** "Set a secret version for a non-existing secrets" and "... for an
    existing secrets" *)
Example test_set_a_secret_version :
  call_set (H := mocks [ok] ok) manager (VStr "new-secret") (VStr "new-secret-value")
           VUndefined managed
  = (Return VUndefined, mkWorld (heap managed) [expected_create; expected_add_version])
  ∧ call_set (H := secret_exists) manager (VStr "new-secret") (VStr "new-secret-value")
             VUndefined managed
    = (Return VUndefined, mkWorld (heap managed) [expected_create; expected_add_version]).
Proof. vm_compute. done. Qed.

(** "Get a secret" of the direct methods: [manager.getSecret("my-project",
    "new-secret", 2)] on a handle without a project. *)
Example test_direct_get_a_secret :
  outcome (call_getSecret (H := found) bare (VStr "my-project") (VStr "new-secret")
             (VNum 2) bare_world)
  = Return (VStr "mock-secret")
  ∧ List.map url (fetched (world_after
      (call_getSecret (H := found) bare (VStr "my-project") (VStr "new-secret")
         (VNum 2) bare_world)))
    = ["https://secretmanager.googleapis.com/v1/projects/my-project/secrets/new-secret/versions/2:access"].
Proof. vm_compute. done. Qed.

(** * Further properties of the code *)

(** ** [set]: the second step *)

Section SetSecondStep.
Context `{Platform}.

(** X1.  When the creation step has passed (status 200 or 409) and the
    response to the add-version request has a status other than 200, [set]
    throws the error of the version step, whose message ends in that status.
    Both requests have been made and no other follows: nothing undoes the
    creation. *)
Theorem set_fails_when_version_is_refused s key value config w :
  script_loaded w ->
  toBoolean (effective w s config "project") = true ->
  let project := effective w s config "project" in
  let request1 := createSecret_request (fetched w) project key in
  let code1 := getResponseCode (UrlFetchApp_fetch (fetched w) request1) in
  let request2 := createSecretVersion_request (fetched w ++ [request1])%list project key value in
  let code2 := getResponseCode (UrlFetchApp_fetch (fetched w ++ [request1])%list request2) in
  code1 = 200 ∨ code1 = 409 ->
  code2 ≠ 200 ->
  outcome (call_set s key value config w)
    = Throw (UnexpectedResponseError_createSecretVersion code2)
  ∧ carries_status (UnexpectedResponseError_createSecretVersion code2) code2
  ∧ fetched (world_after (call_set s key value config w))
    = (fetched w ++ [request1; request2])%list.
Proof.
  intros L P project request1 code1 request2 code2 C1 C2.
  rewrite call_set_eq by done. cbv zeta. rewrite P.
  fold project. fold request1. fold code1.
  apply includes_200_409 in C1. rewrite C1.
  fold request2. fold code2.
  destruct (Z.eqb_spec code2 200) as [E | _]; [contradiction |].
  unfold outcome, world_after. simpl. rewrite entered_fetched, <- app_assoc.
  split; [done |]. split; [| done]. eexists. reflexivity.
Qed.

End SetSecondStep.

(** [manager.set("new-secret", "new-secret-value")] against a service that
    creates the secret and answers the version with status 403. *)
Lemma set_fails_when_version_is_refused_witness :
  script_loaded managed
  ∧ toBoolean (effective managed manager VUndefined "project") = true
  ∧ outcome (call_set (H := version_refused) manager (VStr "new-secret")
               (VStr "new-secret-value") VUndefined managed)
    = Throw (UnexpectedResponseError_createSecretVersion 403)
  ∧ List.map url
      (fetched (world_after (call_set (H := version_refused) manager (VStr "new-secret")
                               (VStr "new-secret-value") VUndefined managed)))
    = ["https://secretmanager.googleapis.com/v1/projects/my-project/secrets?secretId=new-secret";
       "https://secretmanager.googleapis.com/v1/projects/my-project/secrets/new-secret:addVersion"].
Proof.
  assert (P : toBoolean (effective managed manager VUndefined "project") = true)
    by (vm_compute; reflexivity).
  split; [exact managed_script_loaded |]. split; [exact P |].
  destruct (set_fails_when_version_is_refused (H := version_refused) manager
              (VStr "new-secret") (VStr "new-secret-value") VUndefined managed
              managed_script_loaded P)
    as (O & _ & F).
  - left. vm_compute. reflexivity.
  - vm_compute. discriminate.
  - split; [exact O |]. rewrite F. vm_compute. reflexivity.
Defined.

(** ** The configuration error, exactly *)

Section FalsyProject.
Context `{Platform}.

Lemma call_get_truthy s key config w :
  script_loaded w ->
  toBoolean (effective w s config "project") = true ->
  outcome (call_get s key config w) ≠ Throw ConfigurationError.
Proof.
  intros L P E. rewrite call_get_eq, P, getSecret_eq in E by done.
  apply respond_throws in E as [_ E]. discriminate.
Qed.

Lemma call_set_truthy s key value config w :
  script_loaded w ->
  toBoolean (effective w s config "project") = true ->
  outcome (call_set s key value config w) ≠ Throw ConfigurationError.
Proof.
  intros L P E. rewrite call_set_eq in E by done. cbv zeta in E. rewrite P in E.
  unfold outcome in E.
  repeat match type of E with
         | context [if ?b then _ else _] => destruct b
         end; simpl in E; discriminate.
Qed.

(** X2.  [get] and [set] throw the configuration error exactly when the
    effective [project] is falsy: [undefined], [null], the empty string, and
    also [false] and [0].  With any other project they go on to the service,
    and no later failure is reported as a configuration error. *)
Theorem configuration_error_iff_falsy_project s key value config w :
  script_loaded w ->
  (outcome (call_get s key config w) = Throw ConfigurationError
   <-> toBoolean (effective w s config "project") = false)
  ∧ (outcome (call_set s key value config w) = Throw ConfigurationError
     <-> toBoolean (effective w s config "project") = false).
Proof.
  intros L. split; split.
  - intros E. destruct (toBoolean _) eqn:P; [| done].
    by destruct (call_get_truthy s key config w L P).
  - intros P. rewrite call_get_eq, P by done. reflexivity.
  - intros E. destruct (toBoolean _) eqn:P; [| done].
    by destruct (call_set_truthy s key value config w L P).
  - intros P. rewrite call_set_eq by done. cbv zeta. rewrite P. reflexivity.
Qed.

End FalsyProject.

(** [get("k", { project: 0 })]: the project [0] is refused; and
    [manager.get("secret-key")] with its project, against a service that
    answers 403, fails with another error. *)
Lemma configuration_error_iff_falsy_project_witness :
  script_loaded loaded
  ∧ toBoolean (effective loaded Script project_zero "project") = false
  ∧ outcome (call_get (H := denied) Script (VStr "k") project_zero loaded)
    = Throw ConfigurationError
  ∧ outcome (call_set (H := denied) Script (VStr "k") (VStr "v") project_zero loaded)
    = Throw ConfigurationError.
Proof.
  assert (P : toBoolean (effective loaded Script project_zero "project") = false)
    by (vm_compute; reflexivity).
  split; [exact loaded_script_loaded |]. split; [exact P |].
  destruct (configuration_error_iff_falsy_project (H := denied) Script (VStr "k") (VStr "v")
              project_zero loaded loaded_script_loaded) as [[_ G] [_ S]].
  split; [exact (G P) | exact (S P)].
Defined.

(** ** A version that is [undefined] or [null] *)

Section VersionEdge.
Context `{Platform}.

(** X3.  [get] hands the resolved [version] to [getSecret], whose parameter
    has the default "latest": when the resolved version is [undefined] (a
    call-level [{ version: undefined }] is enough, whatever version the
    handle stores) the request goes to [.../versions/latest:access], not to
    the stored version and not to "undefined".  A [null] version is no
    [undefined]: the request goes to [.../versions/null:access]. *)
Theorem undefined_version_reads_latest s key config w :
  script_loaded w ->
  toBoolean (effective w s config "project") = true ->
  let project := effective w s config "project" in
  let requested := List.map url (fetched (world_after (call_get s key config w))) in
  (effective w s config "version" = VUndefined ->
   requested = (List.map url (fetched w) ++ [access_url project key (VStr "latest")])%list)
  ∧ (effective w s config "version" = VNull ->
     requested = (List.map url (fetched w) ++ [access_url project key VNull])%list).
Proof.
  intros L P project requested. unfold requested.
  rewrite call_get_fetched, map_app by done. cbn [List.map].
  split; intros ->; reflexivity.
Qed.

End VersionEdge.

(** [pinned.get("k", { version: undefined })] and
    [pinned.get("k", { version: null })] on a handle that stores version 3. *)
Lemma undefined_version_reads_latest_witness :
  script_loaded pinned_world
  ∧ instance_level pinned_world pinned VUndefined !! "version" = Some (VNum 3)
  ∧ List.map url
      (fetched (world_after (call_get (H := absent) pinned (VStr "k")
                               (VObj [("version", VUndefined)]) pinned_world)))
    = ["https://secretmanager.googleapis.com/v1/projects/my-project/secrets/k/versions/latest:access"]
  ∧ List.map url
      (fetched (world_after (call_get (H := absent) pinned (VStr "k")
                               (VObj [("version", VNull)]) pinned_world)))
    = ["https://secretmanager.googleapis.com/v1/projects/my-project/secrets/k/versions/null:access"].
Proof.
  assert (L : script_loaded pinned_world) by (eexists; vm_compute; reflexivity).
  split; [exact L |]. split; [vm_compute; reflexivity |]. split.
  - destruct (undefined_version_reads_latest (H := absent) pinned (VStr "k")
                (VObj [("version", VUndefined)]) pinned_world L) as [U _].
    + vm_compute. reflexivity.
    + rewrite U by (vm_compute; reflexivity). vm_compute. reflexivity.
  - destruct (undefined_version_reads_latest (H := absent) pinned (VStr "k")
                (VObj [("version", VNull)]) pinned_world L) as [_ N].
    + vm_compute. reflexivity.
    + rewrite N by (vm_compute; reflexivity). vm_compute. reflexivity.
Defined.

(** ** The operations write no object *)

Section StoreKept.
Context `{Platform}.

Lemma method_get_heap h key config w :
  heap (world_after (GCSecretManager.get (VRef h) key config w)) = heap w.
Proof.
  rewrite method_get_eq. cbv zeta. destruct (toBoolean _); [| reflexivity].
  rewrite getSecret_eq. unfold world_after. by rewrite respond_world.
Qed.

Lemma method_set_heap h key value config w :
  heap (world_after (GCSecretManager.set (VRef h) key value config w)) = heap w.
Proof.
  rewrite method_set_eq. cbv zeta.
  repeat match goal with
         | |- context [if ?b then _ else _] => destruct b
         end; reflexivity.
Qed.

Lemma call_get_heap s key config w :
  heap (world_after (call_get s key config w)) = heap (entered w s config).
Proof.
  destruct s as [| h]; [| apply method_get_heap].
  unfold call_get, get. cbv zeta. rewrite init_defaultParam.
  unfold mbind at 1, M_bind at 1. rewrite init_eq. apply method_get_heap.
Qed.

Lemma call_set_heap s key value config w :
  heap (world_after (call_set s key value config w)) = heap (entered w s config).
Proof.
  destruct s as [| h]; [| apply method_set_heap].
  unfold call_set, set. cbv zeta. rewrite init_defaultParam.
  unfold mbind at 1, M_bind at 1. rewrite init_eq. apply method_set_heap.
Qed.

Lemma call_getSecret_heap s project key version w :
  heap (world_after (call_getSecret s project key version w))
  = heap (entered w s VUndefined).
Proof. rewrite call_getSecret_eq. unfold world_after. by rewrite respond_world. Qed.

Lemma entered_keeps w s config l :
  l ∈ dom (heap w) -> heap (entered w s config) !! l = heap w !! l.
Proof. destruct s; [apply init_world_old | done]. Qed.

(** X4.  No operation on secrets writes an object that exists when it is
    called: after [get], [set], [getSecret], [createSecret] and
    [createSecretVersion], as functions and as methods, whatever they return
    or throw, every such object has the properties it had.  So a call-level
    [config] is not kept by the handle, and the defaults stay as they
    were. *)
Theorem operations_write_no_object s key value config project version l w :
  l ∈ dom (heap w) ->
  heap (world_after (call_get s key config w)) !! l = heap w !! l
  ∧ heap (world_after (call_set s key value config w)) !! l = heap w !! l
  ∧ heap (world_after (call_getSecret s project key version w)) !! l = heap w !! l
  ∧ heap (world_after (call_createSecret s project key w)) !! l = heap w !! l
  ∧ heap (world_after (call_createSecretVersion s project key value w)) !! l = heap w !! l.
Proof.
  intros In.
  rewrite call_get_heap, call_set_heap, call_getSecret_heap.
  rewrite call_createSecret_eq, call_createSecretVersion_eq.
  unfold world_after. simpl. rewrite !entered_keeps by done. done.
Qed.

End StoreKept.

(** [manager.get("secret-key", { project: "other", version: "1" })] and
    [manager.set(...)] with the same argument: the handle stores what it
    stored. *)
Lemma operations_write_no_object_witness :
  init_config_loc loaded ∈ dom (heap managed)
  ∧ heap managed !! init_config_loc loaded
    = Some {[ "project" := VStr "my-project"; "version" := VStr "latest" ]}
  ∧ List.map url
      (fetched (world_after
         (call_get (H := found) manager (VStr "secret-key")
            (VObj [("project", VStr "other"); ("version", VStr "1")]) managed)))
    = ["https://secretmanager.googleapis.com/v1/projects/other/secrets/secret-key/versions/1:access"]
  ∧ heap (world_after
            (call_get (H := found) manager (VStr "secret-key")
               (VObj [("project", VStr "other"); ("version", VStr "1")]) managed))
      !! init_config_loc loaded
    = Some {[ "project" := VStr "my-project"; "version" := VStr "latest" ]}
  ∧ heap (world_after
            (call_set (H := found) manager (VStr "secret-key") (VStr "v")
               (VObj [("project", VStr "other"); ("version", VStr "1")]) managed))
      !! init_config_loc loaded
    = Some {[ "project" := VStr "my-project"; "version" := VStr "latest" ]}.
Proof.
  assert (In : init_config_loc loaded ∈ dom (heap managed)).
  { apply elem_of_dom. eexists. vm_compute. reflexivity. }
  assert (S : heap managed !! init_config_loc loaded
              = Some {[ "project" := VStr "my-project"; "version" := VStr "latest" ]})
    by (vm_compute; reflexivity).
  split; [exact In |]. split; [exact S |]. split; [vm_compute; reflexivity |].
  destruct (operations_write_no_object (H := found) manager (VStr "secret-key") (VStr "v")
              (VObj [("project", VStr "other"); ("version", VStr "1")])
              VUndefined VUndefined (init_config_loc loaded) managed In)
    as (G & St & _).
  split; [by rewrite G | by rewrite St].
Defined.

(** ** How many requests, and how they are sent *)

Section Requests.
Context `{Platform}.

Lemma access_request_sent log project key version :
  sent_as_required log (access_request log project key version).
Proof. split; reflexivity. Qed.

Lemma createSecret_request_sent log project key :
  sent_as_required log (createSecret_request log project key).
Proof. split; reflexivity. Qed.

Lemma createSecretVersion_request_sent log project key value :
  sent_as_required log (createSecretVersion_request log project key value).
Proof. split; reflexivity. Qed.

Lemma makes_none {A} n w (r : Result A * World) :
  fetched (world_after r) = fetched w -> makes_at_most n w r.
Proof.
  intros E. exists []. rewrite app_nil_r. split; [done |]. split; [simpl; lia | done].
Qed.

Lemma makes_one {A} n w (r : Result A * World) request :
  fetched (world_after r) = (fetched w ++ [request])%list ->
  sent_as_required (fetched w) request ->
  makes_at_most (S n) w r.
Proof.
  intros E S. exists [request]. split; [done |]. split; [simpl; lia | done].
Qed.

(** X5.  Every operation makes its requests one after the other, at most
    one for [get], [getSecret], [createSecret] and [createSecretVersion] and
    at most two for [set], and sends each of them with
    [muteHttpExceptions: true], with [Accept: application/json] and with
    [Authorization: "Bearer " + ScriptApp.getOAuthToken()], the token being
    asked for anew for each request. *)
Theorem requests_are_few_and_sent_as_required s key value config project version w :
  script_loaded w ->
  makes_at_most 1 w (call_get s key config w)
  ∧ makes_at_most 2 w (call_set s key value config w)
  ∧ makes_at_most 1 w (call_getSecret s project key version w)
  ∧ makes_at_most 1 w (call_createSecret s project key w)
  ∧ makes_at_most 1 w (call_createSecretVersion s project key value w).
Proof.
  intros L. split; [| split; [| split; [| split]]].
  - destruct (toBoolean (effective w s config "project")) eqn:P.
    + eapply makes_one; [by apply call_get_fetched | apply access_request_sent].
    + apply makes_none. rewrite call_get_eq, P by done. apply entered_fetched.
  - rewrite call_set_eq by done. cbv zeta.
    destruct (toBoolean _); [| apply makes_none, entered_fetched].
    destruct (includes _ _).
    + set (request1 := createSecret_request _ _ _).
      set (request2 := createSecretVersion_request _ _ _ _).
      exists [request1; request2]. split.
      { destruct (_ =? 200)%Z; unfold world_after; simpl;
          by rewrite entered_fetched, <- app_assoc. }
      split; [simpl; lia |]. split; [apply createSecret_request_sent |].
      split; [apply createSecretVersion_request_sent | done].
    + eapply makes_one; [| apply createSecret_request_sent].
      unfold world_after. simpl. by rewrite entered_fetched.
  - eapply makes_one; [| apply access_request_sent].
    rewrite call_getSecret_eq. unfold world_after. rewrite respond_world. simpl.
    by rewrite entered_fetched.
  - eapply makes_one; [| apply createSecret_request_sent].
    rewrite call_createSecret_eq. unfold world_after. simpl. by rewrite entered_fetched.
  - eapply makes_one; [| apply createSecretVersion_request_sent].
    rewrite call_createSecretVersion_eq. unfold world_after. simpl.
    by rewrite entered_fetched.
Qed.

End Requests.

(** [manager.set("new-secret", "new-secret-value")] with a token that
    changes: each of the two requests carries the token of its moment. *)
Lemma requests_are_few_and_sent_as_required_witness :
  script_loaded managed
  ∧ makes_at_most (H := rotating) 2 managed
      (call_set (H := rotating) manager (VStr "new-secret") (VStr "new-secret-value")
                VUndefined managed)
  ∧ List.map (fun r => param r "headers")
      (fetched (world_after (call_set (H := rotating) manager (VStr "new-secret")
                               (VStr "new-secret-value") VUndefined managed)))
    = [VObj [("Authorization", VStr "Bearer token-0"); ("Accept", VStr "application/json")];
       VObj [("Authorization", VStr "Bearer token-1"); ("Accept", VStr "application/json")]].
Proof.
  split; [exact managed_script_loaded |]. split.
  - apply (requests_are_few_and_sent_as_required (H := rotating) manager (VStr "new-secret")
             (VStr "new-secret-value") VUndefined VUndefined VUndefined managed
             managed_script_loaded).
  - vm_compute. reflexivity.
Defined.

(** ** What a chain of setters leaves in the handle *)

Lemma write_props c k x w :
  ownProps (heap (write c k x w)) (VRef c) = <[k := x]> (ownProps (heap w) (VRef c)).
Proof. unfold ownProps. by rewrite write_same. Qed.

Lemma field_insert (m : Props) k x k' :
  field (<[k := x]> m) k' = if decide (k = k') then x else field m k'.
Proof. unfold field. rewrite lookup_insert. by case_decide. Qed.

(** The fields of the stored configuration after a chain of setters. *)
Lemma chain_fields h c calls w :
  h ≠ c ->
  stored (heap w) h = VRef c ->
  let before := ownProps (heap w) (VRef c) in
  let after := ownProps (heap (world_after (chain (VRef h) calls w))) (VRef c) in
  field after "project" = default (field before "project") (last_project calls)
  ∧ field after "version" = default (field before "version") (last_version calls)
  ∧ ∀ k, k ≠ "project" -> k ≠ "version" -> after !! k = before !! k.
Proof.
  intros N. revert w. induction calls as [| call rest IH]; intros w S; [done |].
  assert (Step : ∀ k x,
            call_setter (VRef h) call w = (Return (VRef h), write c k x w) ->
            let after := ownProps (heap (world_after (chain (VRef h) (call :: rest) w)))
                                  (VRef c) in
            field after "project"
            = default (field (<[k := x]> (ownProps (heap w) (VRef c))) "project")
                      (last_project rest)
            ∧ field after "version"
              = default (field (<[k := x]> (ownProps (heap w) (VRef c))) "version")
                        (last_version rest)
            ∧ ∀ k', k' ≠ "project" -> k' ≠ "version" ->
                    after !! k' = <[k := x]> (ownProps (heap w) (VRef c)) !! k').
  { intros k x E. cbn [chain]. rewrite (bind_Return _ _ _ _ _ E).
    rewrite <- write_props. apply IH. by rewrite write_stored. }
  destruct call as [p | v]; cbn [last_project last_version].
  - destruct (Step "project" p (setProject_eq h c p w S)) as (P & V & O).
    split; [| split].
    + rewrite P, field_insert. by destruct (last_project rest).
    + rewrite V, field_insert. by destruct (last_version rest).
    + intros k Np Nv. rewrite O by done. by rewrite lookup_insert_ne.
  - destruct (Step "version" v (setVersion_eq h c v w S)) as (P & V & O).
    split; [| split].
    + rewrite P, field_insert. by destruct (last_project rest).
    + rewrite V, field_insert. by destruct (last_version rest).
    + intros k Np Nv. rewrite O by done. by rewrite lookup_insert_ne.
Qed.

(** X6.  After a chain of [setProject] and [setVersion] calls on a handle,
    the configuration that the handle stores has the project of the last
    [setProject] of the chain and the version of the last [setVersion]; a
    field that the chain has no setter for, and every other property, is
    what it was.  A setter replaces, it does not merge: an earlier value of
    the same field is gone, and [undefined] or [null] are stored like any
    other value. *)
Theorem chain_stores_the_last_of_each h c calls w :
  h ≠ c ->
  stored (heap w) h = VRef c ->
  let before := ownProps (heap w) (VRef c) in
  let after := ownProps (heap (world_after (chain (VRef h) calls w))) (VRef c) in
  field after "project" = default (field before "project") (last_project calls)
  ∧ field after "version" = default (field before "version") (last_version calls)
  ∧ ∀ k, k ≠ "project" -> k ≠ "version" -> after !! k = before !! k.
Proof.
  intros N S before after.
  destruct (chain_fields h c calls w N S) as (P & V & O).
  split; [exact P |]. split; [exact V |]. exact O.
Qed.

(** [init({ project: "my-project" })], then
    [.setProject("a").setVersion(1).setProject(undefined).setProject("b")]:
    the handle stores project "b" and version 1. *)
Lemma chain_stores_the_last_of_each_witness :
  init_handle_loc loaded my_project ≠ init_config_loc loaded
  ∧ stored (heap managed) (init_handle_loc loaded my_project) = VRef (init_config_loc loaded)
  ∧ ownProps
      (heap (world_after
         (chain (VRef (init_handle_loc loaded my_project))
            [SetProject (VStr "a"); SetVersion (VNum 1); SetProject VUndefined;
             SetProject (VStr "b")] managed)))
      (VRef (init_config_loc loaded))
    = {[ "project" := VStr "b"; "version" := VNum 1 ]}
  ∧ field (ownProps
      (heap (world_after
         (chain (VRef (init_handle_loc loaded my_project))
            [SetProject (VStr "a"); SetVersion (VNum 1); SetProject VUndefined;
             SetProject (VStr "b")] managed)))
      (VRef (init_config_loc loaded))) "project"
    = VStr "b".
Proof.
  assert (N : init_handle_loc loaded my_project ≠ init_config_loc loaded)
    by (vm_compute; discriminate).
  assert (S : stored (heap managed) (init_handle_loc loaded my_project)
              = VRef (init_config_loc loaded)) by (vm_compute; reflexivity).
  split; [exact N |]. split; [exact S |]. split; [vm_compute; reflexivity |].
  destruct (chain_stores_the_last_of_each _ _
              [SetProject (VStr "a"); SetVersion (VNum 1); SetProject VUndefined;
               SetProject (VStr "b")] managed N S) as (P & _ & _).
  rewrite P. reflexivity.
Defined.

(** ** A setter of the script is an [init] *)

Lemma init_handle_loc_any w config config' :
  init_handle_loc w config = init_handle_loc w config'.
Proof. unfold init_handle_loc, init_store. by rewrite !dom_insert_L. Qed.

Lemma write_init_world k x w :
  write (init_config_loc w) k x (init_world w VUndefined) = init_world w (VObj [(k, x)]).
Proof.
  destruct (init_handle_loc_fresh w VUndefined) as [_ N].
  unfold write. rewrite init_world_config.
  unfold init_world, set_heap. cbn [heap fetched default]. f_equal.
  rewrite (init_handle_loc_any w (VObj [(k, x)]) VUndefined).
  rewrite insert_insert_ne by done. f_equal.
  unfold init_store. rewrite insert_insert_eq. f_equal.
  unfold init_copy, spread, ownProps, assign. simpl.
  by rewrite insert_union_l.
Qed.

(** X7.  The script's [setProject(p)] does what [init({ project: p })]
    does, and [setVersion(v)] what [init({ version: v })] does: the same
    new handle, storing the same configuration, in the same world. *)
Theorem script_setter_is_init p v w :
  setProject p w = init (VObj [("project", p)]) w
  ∧ setVersion v w = init (VObj [("version", v)]) w.
Proof.
  split.
  - unfold setProject, mbind, M_bind. rewrite !init_eq.
    rewrite (setProject_eq _ _ p _ (init_world_stored w VUndefined)).
    by rewrite write_init_world, (init_handle_loc_any w (VObj [("project", p)]) VUndefined).
  - unfold setVersion, mbind, M_bind. rewrite !init_eq.
    rewrite (setVersion_eq _ _ v _ (init_world_stored w VUndefined)).
    by rewrite write_init_world, (init_handle_loc_any w (VObj [("version", v)]) VUndefined).
Qed.

(** ** Values without references *)

Lemma assign_lookup l (m : Props) k x :
  assign l m !! k = Some x -> (k, x) ∈ l ∨ m !! k = Some x.
Proof.
  unfold assign. revert m. induction l as [| [k' x'] rest IH]; intros m E; simpl in E.
  - by right.
  - apply IH in E as [In | E].
    + left. by apply list_elem_of_further.
    + rewrite lookup_insert in E. case_decide as D.
      * injection E as ->. subst k'. left. apply list_elem_of_here.
      * by right.
Qed.

Lemma refless_field_assign l k :
  forallb (fun kv => refless kv.2) l = true -> refless (field (assign l ∅) k) = true.
Proof.
  intros F. unfold field. destruct (assign l ∅ !! k) as [x |] eqn:E; [| reflexivity].
  apply assign_lookup in E as [In | E]; [| by rewrite lookup_empty in E].
  rewrite forallb_forall in F. apply list_elem_of_In in In. apply (F _ In).
Qed.

Lemma refless_chars_from i s :
  forallb (fun kv => refless kv.2) (chars_from i s) = true.
Proof. revert i. induction s as [| a s IH]; intros i; simpl; [done | apply IH]. Qed.

Lemma refless_items_from i items :
  forallb refless items = true ->
  forallb (fun kv => refless kv.2) (items_from i items) = true.
Proof.
  revert i. induction items as [| x items IH]; intros i F; simpl in *; [done |].
  apply andb_true_iff in F as [Fx F]. rewrite Fx. by apply IH.
Qed.

(** A property of a value without references is read without the store, and
    is a value without references. *)
Lemma getProp_refless v k :
  refless v = true ->
  (∃ x, refless x = true ∧ ∀ w', getProp v k w' = (Return x, w'))
  ∨ (∀ w', getProp v k w' = (Throw JsTypeError, w')).
Proof.
  intros R. destruct v as [| | b | n | s | items | fields | l]; simpl in R;
    try discriminate; try (right; reflexivity); left; unfold getProp.
  - exists VUndefined. done.
  - exists VUndefined. done.
  - destruct (String.eqb k "length").
    + exists (VNum (Z.of_nat (String.length s))). done.
    + exists (field (assign (chars_from 0 s) ∅) k).
      split; [apply refless_field_assign, refless_chars_from | done].
  - destruct (String.eqb k "length").
    + exists (VNum (Z.of_nat (List.length items))). done.
    + exists (field (assign (items_from 0 items) ∅) k).
      split; [by apply refless_field_assign, refless_items_from | done].
  - exists (field (assign fields ∅) k). split; [by apply refless_field_assign | done].
Qed.

Section RespondWithoutStore.
Context `{Platform}.

(** When the body parses to a value without references, what [respond]
    answers does not depend on the store. *)
Lemma respond_refless response w w' :
  (∀ parsed, JSON_parse (getContentText response) = Some parsed -> refless parsed = true) ->
  outcome (respond response w) = outcome (respond response w').
Proof.
  intros R. unfold respond.
  destruct (getResponseCode response =? 403)%Z; [reflexivity |].
  destruct (getResponseCode response =? 404)%Z; [reflexivity |].
  unfold parse. destruct (JSON_parse _) as [parsed |]; [| reflexivity].
  specialize (R parsed eq_refl).
  unfold mbind, M_bind, mret, M_ret at 1 3.
  destruct (getProp_refless parsed "payload" R) as [(payload & Rp & E) | E];
    rewrite !E; [| reflexivity].
  destruct (getProp_refless payload "data" Rp) as [(data & _ & E') | E'];
    rewrite !E'; reflexivity.
Qed.

End RespondWithoutStore.

(** ** A configuration given to [init] or to the call *)

Lemma ownProps_init_world w config v :
  held w v -> ownProps (heap (init_world w config)) v = ownProps (heap w) v.
Proof.
  destruct v; try reflexivity. intros In.
  unfold ownProps. by rewrite init_world_old.
Qed.

Lemma ownProps_bare_config w :
  ownProps (heap (init_world w VUndefined)) (VRef (init_config_loc w))
  = init_copy w VUndefined.
Proof. unfold ownProps. by rewrite init_world_config. Qed.

Lemma log_fetch_fetched r w : fetched (log_fetch r w) = (fetched w ++ [r])%list.
Proof. reflexivity. Qed.

Lemma held_defaultParam w config : held w config -> held w (defaultParam config (VObj [])).
Proof. by destruct config. Qed.

Lemma overlay_on_bare_handle w config k :
  overlay (defaults w) (init_copy w VUndefined)
          (ownProps (heap w) (defaultParam config (VObj []))) k
  = effective w Script config k.
Proof.
  unfold effective, instance_level, call_level, overlay.
  rewrite lookup_init_copy. simpl. rewrite !lookup_empty.
  destruct (ownProps (heap w) (defaultParam config (VObj [])) !! k); [reflexivity |].
  destruct (defaults w !! k); reflexivity.
Qed.

Section InitOrCall.
Context `{Platform}.

Lemma get_with_call_config_eq key config w :
  script_loaded w ->
  held w config ->
  get_with_call_config key config w
  = if toBoolean (effective w Script config "project")
    then GCSecretManager.getSecret (VRef (init_handle_loc w VUndefined))
           (effective w Script config "project") key (effective w Script config "version")
           (init_world w VUndefined)
    else (Throw ConfigurationError, init_world w VUndefined).
Proof.
  intros L Hd. unfold get_with_call_config, mbind at 1, M_bind at 1.
  rewrite init_eq, method_get_eq. cbv zeta.
  rewrite init_world_defaults, init_world_stored by done.
  rewrite (ownProps_init_world _ _ (defaultParam config _)) by by apply held_defaultParam.
  by rewrite ownProps_bare_config, !overlay_on_bare_handle.
Qed.

Lemma set_with_call_config_eq key value config w :
  script_loaded w ->
  held w config ->
  outcome (set_with_call_config key value config w) = outcome (call_set Script key value config w)
  ∧ fetched (world_after (set_with_call_config key value config w))
    = fetched (world_after (call_set Script key value config w)).
Proof.
  intros L Hd. rewrite call_set_eq by done.
  unfold set_with_call_config, mbind, M_bind.
  rewrite init_eq. cbv beta iota. rewrite method_set_eq. cbv zeta.
  rewrite init_world_defaults, init_world_stored by done.
  rewrite (ownProps_init_world _ _ (defaultParam config _)) by by apply held_defaultParam.
  rewrite ownProps_bare_config, !overlay_on_bare_handle.
  rewrite !log_fetch_fetched, !init_world_fetched.
  repeat match goal with
         | |- context [if ?b then _ else _] => destruct b
         end; done.
Qed.

(** X8.  For a new handle, a configuration given to [init] and the same
    configuration given to the call are the same thing:
    [init(config).get(key)], which is what the script's [get(key, config)]
    runs, and [init().get(key, config)] make the same requests and end the
    same way, and so do [init(config).set(key, value)] and
    [init().set(key, value, config)].  (The body of the response is a value
    of [JSON.parse]: it refers to no object of the store.) *)
Theorem config_at_init_or_at_call key value config w :
  script_loaded w ->
  held w config ->
  let request :=
    access_request (fetched w) (effective w Script config "project") key
                   (effective w Script config "version") in
  (∀ parsed, JSON_parse (getContentText (UrlFetchApp_fetch (fetched w) request)) = Some parsed ->
             refless parsed = true) ->
  (outcome (get_with_call_config key config w) = outcome (get key config w)
   ∧ fetched (world_after (get_with_call_config key config w))
     = fetched (world_after (get key config w)))
  ∧ (outcome (set_with_call_config key value config w) = outcome (set key value config w)
     ∧ fetched (world_after (set_with_call_config key value config w))
       = fetched (world_after (set key value config w))).
Proof.
  intros L Hd request R. split; [| by apply set_with_call_config_eq].
  rewrite get_with_call_config_eq by done.
  change (get key config w) with (call_get Script key config w).
  rewrite call_get_eq by done.
  destruct (toBoolean _); [| done].
  rewrite !getSecret_eq. unfold world_after. rewrite !respond_world.
  split; [| reflexivity]. by apply respond_refless.
Qed.

End InitOrCall.

(** [init().get("secret-key", { project: "my-project" })] and
    [get("secret-key", { project: "my-project" })]. *)
Lemma config_at_init_or_at_call_witness :
  script_loaded loaded
  ∧ held loaded my_project
  ∧ outcome (get_with_call_config (H := found) (VStr "secret-key") my_project loaded)
    = Return (VStr "mock-secret")
  ∧ outcome (get (H := found) (VStr "secret-key") my_project loaded)
    = Return (VStr "mock-secret")
  ∧ fetched (world_after (get_with_call_config (H := found) (VStr "secret-key")
                            my_project loaded))
    = fetched (world_after (get (H := found) (VStr "secret-key") my_project loaded)).
Proof.
  split; [exact loaded_script_loaded |]. split; [exact I |].
  destruct (config_at_init_or_at_call (H := found) (VStr "secret-key") (VStr "v")
              my_project loaded loaded_script_loaded I) as [[O F] _].
  - intros parsed E. vm_compute in E. injection E as <-. reflexivity.
  - split; [vm_compute; reflexivity |]. split; [| exact F].
    rewrite <- O. vm_compute. reflexivity.
Defined.

(** ** A body that is not what [getSecret] expects *)

Section UnexpectedBody.
Context `{Platform}.

(** X9.  When the status of the response is neither 403 nor 404,
    [getSecret] reads [JSON.parse(body)["payload"]["data"]] without a check:
    a body that is not JSON makes the read throw a [SyntaxError]; an object
    without [payload] makes it throw a [TypeError]; and when the payload is
    an object without [data], nothing is thrown and the read returns what
    the decoders make of [undefined]. *)
Theorem read_of_an_unexpected_body s op w request :
  script_loaded w ->
  fetched (world_after (call_read s op w)) = (fetched w ++ [request])%list ->
  let response := UrlFetchApp_fetch (fetched w) request in
  getResponseCode response ≠ 403 ->
  getResponseCode response ≠ 404 ->
  (JSON_parse (getContentText response) = None ->
   outcome (call_read s op w) = Throw JsSyntaxError)
  ∧ (∀ fields,
       JSON_parse (getContentText response) = Some (VObj fields) ->
       assign fields ∅ !! "payload" = None ->
       outcome (call_read s op w) = Throw JsTypeError)
  ∧ (∀ fields inner,
       JSON_parse (getContentText response) = Some (VObj fields) ->
       assign fields ∅ !! "payload" = Some (VObj inner) ->
       assign inner ∅ !! "data" = None ->
       outcome (call_read s op w)
       = Return (Blob_getDataAsString (Utilities_base64Decode VUndefined))).
Proof.
  intros L F response N3 N4.
  destruct (call_read_issued s op w request L F) as [w' ->]. fold response.
  unfold respond.
  destruct (Z.eqb_spec (getResponseCode response) 403); [done |].
  destruct (Z.eqb_spec (getResponseCode response) 404); [done |].
  unfold parse. split; [| split].
  - intros ->. reflexivity.
  - intros fields -> E. unfold outcome, mbind, M_bind, mret, M_ret, getProp, field, ownProps.
    rewrite E. reflexivity.
  - intros fields inner -> E E'.
    unfold outcome, mbind, M_bind, mret, M_ret, getProp, field, ownProps.
    rewrite E. simpl. rewrite E'. reflexivity.
Qed.

End UnexpectedBody.

(** [manager.get("secret-key")] against a service that answers 200 with an
    empty body, and against one that answers 200 with [{"payload":{}}]. *)
Lemma read_of_an_unexpected_body_witness :
  script_loaded managed
  ∧ JSON.parse "" = None
  ∧ outcome (call_read (H := bodiless) manager (Get (VStr "secret-key") VUndefined) managed)
    = Throw JsSyntaxError
  ∧ JSON.parse empty_payload_body = Some (VObj [("payload", VObj [])])
  ∧ outcome (call_read (H := dataless) manager (Get (VStr "secret-key") VUndefined) managed)
    = Return VUndefined.
Proof.
  assert (Fb : fetched (world_after (call_read (H := bodiless) manager
                                       (Get (VStr "secret-key") VUndefined) managed))
               = ([] ++ [latest_of_secret_key])%list) by (vm_compute; reflexivity).
  assert (Fd : fetched (world_after (call_read (H := dataless) manager
                                       (Get (VStr "secret-key") VUndefined) managed))
               = ([] ++ [latest_of_secret_key])%list) by (vm_compute; reflexivity).
  assert (Pb : JSON.parse "" = None) by (vm_compute; reflexivity).
  assert (Pd : JSON.parse empty_payload_body = Some (VObj [("payload", VObj [])]))
    by (vm_compute; reflexivity).
  split; [exact managed_script_loaded |]. split; [exact Pb |]. split.
  - destruct (read_of_an_unexpected_body (H := bodiless) manager
                (Get (VStr "secret-key") VUndefined) managed latest_of_secret_key
                managed_script_loaded Fb) as (Syntax & _ & _).
    + vm_compute. discriminate.
    + vm_compute. discriminate.
    + apply Syntax. exact Pb.
  - split; [exact Pd |].
    destruct (read_of_an_unexpected_body (H := dataless) manager
                (Get (VStr "secret-key") VUndefined) managed latest_of_secret_key
                managed_script_loaded Fd) as (_ & _ & NoData).
    + vm_compute. discriminate.
    + vm_compute. discriminate.
    + apply (NoData [("payload", VObj [])] []); [exact Pd | |]; vm_compute; reflexivity.
Defined.

(** ** The constructor without an argument *)

Lemma fresh_not_DEFAULT_CONFIG w :
  script_loaded w -> fresh (dom (heap w)) ≠ DEFAULT_CONFIG.
Proof.
  intros L E. apply elem_of_dom in L. rewrite <- E in L.
  by apply (is_fresh (dom (heap w))).
Qed.

(** X10.  The constructor's parameter defaults to [DEFAULT_CONFIG] itself,
    not to a copy: a handle made by [new GCSecretManager()] stores the
    object of the defaults, and [setProject] on it rewrites the defaults, so
    that every handle that [init] makes afterwards starts from the new
    project.  ([init] always gives the constructor an object of its own.) *)
Theorem constructor_default_shares_the_defaults p w :
  script_loaded w ->
  let after := world_after (construct_and_setProject p w) in
  defaults after = <["project" := p]> (defaults w)
  ∧ ∀ config,
      ownProps (heap after) (defaultParam config (VObj [])) !! "project" = None ->
      init_copy after config !! "project" = Some p.
Proof.
  intros L after.
  assert (D : defaults after = <["project" := p]> (defaults w)).
  { unfold after, construct_and_setProject, mbind, M_bind.
    unfold GCSecretManager.constructor at 1. cbn [defaultParam alloc].
    set (h := fresh (dom (heap w))).
    set (w1 := set_heap (<[h := {[ "config_" := VRef DEFAULT_CONFIG ]}]> (heap w)) w).
    assert (S : stored (heap w1) h = VRef DEFAULT_CONFIG).
    { unfold stored, ownProps, w1, set_heap. simpl. by rewrite lookup_insert_eq. }
    rewrite (setProject_eq h DEFAULT_CONFIG p w1 S).
    unfold world_after, defaults. cbn [snd]. rewrite write_props. f_equal.
    unfold ownProps, w1, set_heap. simpl.
    rewrite lookup_insert_ne; [done |]. by apply fresh_not_DEFAULT_CONFIG. }
  split; [exact D |].
  intros config E. rewrite lookup_init_copy, E, D. apply lookup_insert_eq.
Qed.

(** After [new GCSecretManager().setProject("leaked")] in the loaded
    script, [get("k")] of the script no longer fails for want of a project:
    it asks for the secret of project "leaked". *)
Lemma constructor_default_shares_the_defaults_witness :
  script_loaded loaded
  ∧ defaults (world_after (construct_and_setProject (VStr "leaked") loaded))
    = {[ "project" := VStr "leaked"; "version" := VStr "latest" ]}
  ∧ List.map url
      (fetched (world_after
         (call_get (H := absent) Script (VStr "k") VUndefined
            (world_after (construct_and_setProject (VStr "leaked") loaded)))))
    = ["https://secretmanager.googleapis.com/v1/projects/leaked/secrets/k/versions/latest:access"].
Proof.
  split; [exact loaded_script_loaded |].
  destruct (constructor_default_shares_the_defaults (VStr "leaked") loaded
              loaded_script_loaded) as [D _].
  split; [rewrite D; vm_compute; reflexivity | vm_compute; reflexivity].
Defined.

(** ** [set] and the version *)

Lemma write_version_keeps c v w x k :
  k ≠ "version" ->
  ownProps (heap (write c "version" v w)) x !! k = ownProps (heap w) x !! k.
Proof.
  intros N. destruct x as [| | | | | | | l]; try reflexivity.
  destruct (decide (l = c)) as [-> | Nl].
  - rewrite write_props. by rewrite lookup_insert_ne.
  - unfold ownProps. by rewrite write_other.
Qed.

Lemma write_version_overlay c v w x y z k :
  k ≠ "version" ->
  overlay (ownProps (heap (write c "version" v w)) x)
          (ownProps (heap (write c "version" v w)) y)
          (ownProps (heap (write c "version" v w)) z) k
  = overlay (ownProps (heap w) x) (ownProps (heap w) y) (ownProps (heap w) z) k.
Proof. intros N. unfold overlay. by rewrite !write_version_keeps. Qed.

Section SetAndVersion.
Context `{Platform}.

(** X11.  [set] takes nothing but the project from the configuration: a
    [setVersion] on the handle before [set] changes neither the two
    requests nor the way [set] ends. *)
Theorem set_ignores_the_version h c v key value config w :
  stored (heap w) h = VRef c ->
  outcome (setVersion_then_set (VRef h) v key value config w)
  = outcome (GCSecretManager.set (VRef h) key value config w)
  ∧ fetched (world_after (setVersion_then_set (VRef h) v key value config w))
    = fetched (world_after (GCSecretManager.set (VRef h) key value config w)).
Proof.
  intros S. unfold setVersion_then_set, mbind, M_bind.
  rewrite (setVersion_eq h c v w S). cbv beta iota.
  rewrite !method_set_eq. cbv zeta.
  assert (S' : stored (heap (write c "version" v w)) h = stored (heap w) h).
  { unfold stored, field. by rewrite write_version_keeps. }
  rewrite S'. unfold defaults. rewrite !write_version_overlay by done.
  rewrite !log_fetch_fetched, !write_fetched.
  repeat match goal with
         | |- context [if ?b then _ else _] => destruct b
         end; done.
Qed.

End SetAndVersion.

(** [manager.setVersion(7).set("new-secret", "new-secret-value")] *)
Lemma set_ignores_the_version_witness :
  stored (heap managed) (init_handle_loc loaded my_project) = VRef (init_config_loc loaded)
  ∧ fetched (world_after
      (setVersion_then_set (H := secret_exists) (VRef (init_handle_loc loaded my_project))
         (VNum 7) (VStr "new-secret") (VStr "new-secret-value") VUndefined managed))
    = [expected_create; expected_add_version].
Proof.
  assert (S : stored (heap managed) (init_handle_loc loaded my_project)
              = VRef (init_config_loc loaded)) by (vm_compute; reflexivity).
  split; [exact S |].
  destruct (set_ignores_the_version (H := secret_exists) _ _ (VNum 7) (VStr "new-secret")
              (VStr "new-secret-value") VUndefined managed S) as [_ F].
  rewrite F. vm_compute. reflexivity.
Defined.

(** ** The setters of the script configure no later call *)

Lemma init_world_script_loaded w config : script_loaded w -> script_loaded (init_world w config).
Proof.
  intros L. unfold script_loaded. rewrite init_world_old; [done |]. by apply elem_of_dom.
Qed.

Lemma setProject_run p w :
  setProject p w
  = (Return (VRef (init_handle_loc w VUndefined)), init_world w (VObj [("project", p)])).
Proof.
  unfold setProject, mbind, M_bind. rewrite init_eq.
  rewrite (setProject_eq _ _ p _ (init_world_stored w VUndefined)).
  by rewrite write_init_world.
Qed.

Lemma setVersion_run v w :
  setVersion v w
  = (Return (VRef (init_handle_loc w VUndefined)), init_world w (VObj [("version", v)])).
Proof.
  unfold setVersion, mbind, M_bind. rewrite init_eq.
  rewrite (setVersion_eq _ _ v _ (init_world_stored w VUndefined)).
  by rewrite write_init_world.
Qed.

Lemma effective_script_default w :
  effective w Script VUndefined "project" = field (defaults w) "project".
Proof. unfold effective, overlay. simpl. by rewrite !lookup_empty. Qed.

Section ScriptSetters.
Context `{Platform}.

(** X12.  The script's [setProject] and [setVersion] configure the handle
    that they return and nothing else: when the handle is dropped, a later
    [get(key)] or [set(key, value)] of the script finds the defaults as they
    were, and fails with the configuration error, without a request, if the
    default project is falsy, as it is in [DEFAULT_CONFIG]. *)
Theorem script_setters_configure_no_later_call p v key value w :
  script_loaded w ->
  toBoolean (field (defaults w) "project") = false ->
  (outcome (setters_then_get p v key w) = Throw ConfigurationError
   ∧ fetched (world_after (setters_then_get p v key w)) = fetched w)
  ∧ (outcome (setters_then_set p v key value w) = Throw ConfigurationError
     ∧ fetched (world_after (setters_then_set p v key value w)) = fetched w).
Proof.
  intros L P.
  set (w1 := init_world w (VObj [("project", p)])).
  set (w2 := init_world w1 (VObj [("version", v)])).
  assert (L1 : script_loaded w1) by by apply init_world_script_loaded.
  assert (L2 : script_loaded w2) by by apply init_world_script_loaded.
  assert (P2 : toBoolean (effective w2 Script VUndefined "project") = false).
  { rewrite effective_script_default. unfold w2, w1.
    by rewrite !init_world_defaults. }
  unfold setters_then_get, setters_then_set, mbind, M_bind.
  rewrite setProject_run. cbv beta iota. rewrite setVersion_run. cbv beta iota.
  fold w1. fold w2.
  change (get key VUndefined w2) with (call_get Script key VUndefined w2).
  change (set key value VUndefined w2) with (call_set Script key value VUndefined w2).
  rewrite call_get_eq, call_set_eq by done. cbv zeta. rewrite P2.
  unfold outcome, world_after. simpl. done.
Qed.

End ScriptSetters.

(** [setProject("my-project"); setVersion(3); get("k")] in the loaded
    script. *)
Lemma script_setters_configure_no_later_call_witness :
  script_loaded loaded
  ∧ toBoolean (field (defaults loaded) "project") = false
  ∧ outcome (setters_then_get (H := found) (VStr "my-project") (VNum 3) (VStr "k") loaded)
    = Throw ConfigurationError
  ∧ fetched (world_after (setters_then_get (H := found) (VStr "my-project") (VNum 3)
                            (VStr "k") loaded))
    = [].
Proof.
  assert (P : toBoolean (field (defaults loaded) "project") = false)
    by (vm_compute; reflexivity).
  split; [exact loaded_script_loaded |]. split; [exact P |].
  destruct (script_setters_configure_no_later_call (H := found) (VStr "my-project") (VNum 3)
              (VStr "k") (VStr "v") loaded loaded_script_loaded P) as [[O F] _].
  split; [exact O | exact F].
Defined.

(** ** A handle remembers its setters *)

Lemma field_lookup (m : Props) k x : field m k = x -> x ≠ VUndefined -> m !! k = Some x.
Proof. unfold field. destruct (m !! k); simpl; intros; congruence. Qed.

Section ChainThenGet.
Context `{Platform}.

(** X13.  [get] on a handle, after any chain of setters on it, asks for the
    project of the last [setProject] and the version of the last
    [setVersion] of the chain: one request, to the path built from them. *)
Theorem chain_then_get_asks_for_the_last h c calls p v key w :
  h ≠ c ->
  stored (heap w) h = VRef c ->
  last_project calls = Some p ->
  last_version calls = Some v ->
  toBoolean p = true ->
  v ≠ VUndefined ->
  fetched (world_after (chain_then_get (VRef h) calls key w))
  = (fetched w ++ [access_request (fetched w) p key v])%list
  ∧ url (access_request (fetched w) p key v) = access_url p key v.
Proof.
  intros N S LP LV P NV.
  destruct (chain_frame h c calls w N S) as (O & F & Fr).
  destruct (chain_fields h c calls w N S) as (Pr & Ve & _).
  rewrite LP in Pr. rewrite LV in Ve. simpl in Pr, Ve.
  unfold chain_then_get, mbind, M_bind.
  destruct (chain (VRef h) calls w) as [r w'] eqn:E.
  unfold outcome in O. unfold world_after in F, Fr, Pr, Ve. simpl in O, F, Fr, Pr, Ve.
  subst r. rewrite method_get_eq. cbv zeta.
  assert (S' : stored (heap w') h = VRef c).
  { unfold stored, ownProps. rewrite Fr by done. exact S. }
  assert (Pp : ownProps (heap w') (VRef c) !! "project" = Some p).
  { apply field_lookup; [exact Pr |]. intros ->. discriminate. }
  assert (Pv : ownProps (heap w') (VRef c) !! "version" = Some v)
    by by apply field_lookup.
  rewrite S'. unfold overlay. simpl (ownProps _ (defaultParam _ _)).
  rewrite !lookup_empty, Pp, Pv, P, getSecret_eq.
  unfold world_after. rewrite respond_world, log_fetch_fetched, F.
  split; [reflexivity |]. by apply access_request_url.
Qed.

End ChainThenGet.

(** [manager.setProject("a").setVersion(1).setProject("b").get("k")] *)
Lemma chain_then_get_asks_for_the_last_witness :
  init_handle_loc loaded my_project ≠ init_config_loc loaded
  ∧ stored (heap managed) (init_handle_loc loaded my_project) = VRef (init_config_loc loaded)
  ∧ List.map url
      (fetched (world_after
         (chain_then_get (H := absent) (VRef (init_handle_loc loaded my_project))
            [SetProject (VStr "a"); SetVersion (VNum 1); SetProject (VStr "b")]
            (VStr "k") managed)))
    = ["https://secretmanager.googleapis.com/v1/projects/b/secrets/k/versions/1:access"].
Proof.
  assert (N : init_handle_loc loaded my_project ≠ init_config_loc loaded)
    by (vm_compute; discriminate).
  assert (S : stored (heap managed) (init_handle_loc loaded my_project)
              = VRef (init_config_loc loaded)) by (vm_compute; reflexivity).
  split; [exact N |]. split; [exact S |].
  destruct (chain_then_get_asks_for_the_last (H := absent) _ _
              [SetProject (VStr "a"); SetVersion (VNum 1); SetProject (VStr "b")]
              (VStr "b") (VNum 1) (VStr "k") managed N S) as [F U].
  - reflexivity.
  - reflexivity.
  - reflexivity.
  - discriminate.
  - rewrite F, map_app. cbn [List.map]. rewrite U. vm_compute. reflexivity.
Defined.
